(** * Retrieval, selection and citation pipeline of the RAG assistant

    A shallow embedding of [app/services/chroma_repository.py],
    [app/services/rag_service.py], [app/models/schemas.py] and
    [app/core/config.py], followed by the properties of the pipeline:
    score normalisation, chunk selection (threshold, ordering, count and
    character budget), citation numbering, answer composition and the
    propagation of store failures.

    Python values are modelled as follows.
    - [float] is IEEE-754 binary64: [spec_float] with the operations of
      [SpecFloat] at precision 53 and maximal exponent 1024.
    - [int] is [Z]; [len] is the length as a [Z].
    - [str] is [string]; one [ascii] stands for one character, so the model
      covers texts whose code points are below 256.
    - [dict] with string keys is [gmap string _]; a missing key is [None].
    - exceptions are values of [exn]; code that may raise returns an
      [outcome]; code that calls the vector store runs in [Run], which also
      threads the log of calls made to the store.
    - calls to [logger] only write log records and are left out. *)

From Stdlib Require Import ZArith List String Ascii Bool Lia.
From Stdlib Require Import Floats.SpecFloat.
From Stdlib Require Import Decimal DecimalString DecimalZ.
From stdpp Require Import gmap strings list sorting.

Local Open Scope Z_scope.

(* ===================================================================== *)
(** * Part I. The model                                                   *)
(* ===================================================================== *)

(** ** Python floats *)

Module PyFloat.

Abbreviation float := spec_float (only parsing).

Definition prec : Z := 53.
Definition emax : Z := 1024.

Definition of_Z (z : Z) : float := binary_normalize prec emax z 0 false.

Definition sub (x y : float) : float := SFsub prec emax x y.
Definition div (x y : float) : float := SFdiv prec emax x y.

(** [x < y], [x <= y] and [x == y] on floats; all three are [false]
    as soon as one side is NaN. *)
Definition ltb (x y : float) : bool := SFltb x y.
Definition leb (x y : float) : bool := SFleb x y.
Definition eqb (x y : float) : bool := SFeqb x y.

Definition is_nan (x : float) : bool :=
  match x with S754_nan => true | _ => false end.

(** The literals that occur in the sources. *)
Definition zero : float := S754_zero false.                       (* 0.0 *)
Definition one : float := Eval vm_compute in of_Z 1.              (* 1.0 *)
Definition two : float := Eval vm_compute in of_Z 2.              (* 2.0 *)
Definition three_tenths : float :=
  Eval vm_compute in div (of_Z 3) (of_Z 10).                      (* 0.3 *)

(** The builtins [min(a, b)] and [max(a, b)]: the first argument is kept
    unless the second one is strictly smaller (resp. larger). *)
Definition min (a b : float) : float := if ltb b a then b else a.
Definition max (a b : float) : float := if ltb a b then b else a.

(** Truth value of a float: every float but the two zeros. *)
Definition truthy (x : float) : bool :=
  match x with S754_zero _ => false | _ => true end.

(** A key in [Z * Z * Z] whose lexicographic order is the order of the
    floats that are not NaN; used only in proofs. *)
Definition key (x : float) : Z * Z * Z :=
  match x with
  | S754_nan => (0, 0, 0)
  | S754_zero _ => (0, 0, 0)
  | S754_infinity true => (-2, 0, 0)
  | S754_infinity false => (2, 0, 0)
  | S754_finite true m e => (-1, - e, Z.neg m)
  | S754_finite false m e => (1, e, Z.pos m)
  end.

Definition lex_compare (a b : Z * Z * Z) : comparison :=
  let '(a1, a2, a3) := a in
  let '(b1, b2, b3) := b in
  match a1 ?= b1 with
  | Eq => match a2 ?= b2 with
          | Eq => a3 ?= b3
          | c => c
          end
  | c => c
  end.

End PyFloat.

Abbreviation float := spec_float (only parsing).

(** ** Python strings *)

Module PyStr.

Local Open Scope string_scope.

(** ["\n"] *)
Definition nl : string := String (ascii_of_nat 10) "".

Definition len (s : string) : Z := Z.of_nat (String.length s).

(** [str(i)] and [f"{i}"] for an [int]. *)
Definition str_of_int (z : Z) : string := NilZero.string_of_int (Z.to_int z).

(** [sep.join(parts)] *)
Definition join (sep : string) (parts : list string) : string :=
  String.concat sep parts.

(** [s.replace("\n", " ")]: a replacement of one character by another. *)
Fixpoint replace_char (old new : ascii) (s : string) : string :=
  match s with
  | "" => ""
  | String c s' =>
      String (if Ascii.eqb c old then new else c) (replace_char old new s')
  end.

(** [str.isspace] on one character (code points below 256). *)
Definition isspace (c : ascii) : bool :=
  let n := nat_of_ascii c in
  ((9 <=? n) && (n <=? 13) || (28 <=? n) && (n <=? 32)
   || (n =? 133) || (n =? 160))%nat.

Fixpoint lstrip (s : string) : string :=
  match s with
  | "" => ""
  | String c s' => if isspace c then lstrip s' else s
  end.

Definition rstrip (s : string) : string :=
  String.rev (lstrip (String.rev s)).

(** [s.strip()] *)
Definition strip (s : string) : string := rstrip (lstrip s).

End PyStr.

(** ** Metadata values

    Chroma stores string, integer, float and boolean metadata values. *)

Inductive scalar : Type :=
| SStr (s : string)
| SInt (z : Z)
| SFloat (f : float)
| SBool (b : bool).

Abbreviation Metadata := (gmap string scalar) (only parsing).

(** Truth value of a metadata value, as [if v:] and [v or w] test it. *)
Definition truthy (v : scalar) : bool :=
  match v with
  | SStr s => negb (String.eqb s "")
  | SInt z => negb (z =? 0)
  | SFloat f => PyFloat.truthy f
  | SBool b => b
  end.

(** [a or b] where both sides come from [dict.get]: [None] is false. *)
Definition py_or (a b : option scalar) : option scalar :=
  match a with
  | Some v => if truthy v then a else b
  | None => b
  end.

Definition is_truthy (a : option scalar) : bool :=
  match a with
  | Some v => truthy v
  | None => false
  end.

(** Functions of the Python standard library that the pipeline calls and
    whose text is not part of the repository. *)
Class PyLib := {
  (** [textwrap.shorten(text, width=w)] *)
  shorten : string -> Z -> string;
  (** [str(x)] for a float [x] *)
  float_repr : float -> string
}.

(** [str(v)], which is also what an f-string prints. *)
Definition py_str `{PyLib} (v : scalar) : string :=
  match v with
  | SStr s => s
  | SInt z => PyStr.str_of_int z
  | SFloat f => float_repr f
  | SBool b => if b then "True"%string else "False"%string
  end.

(** ** Exceptions and the two monads *)

(** [app/services/exceptions.py] declares [ChromaUnavailableError]; the
    other two constructors stand for a pydantic validation failure and for
    whatever the Chroma client raises. *)
Inductive exn : Type :=
| ChromaUnavailableError (message : string)
| ValidationError (field : string)
| ClientException (detail : string).

Inductive outcome (A : Type) : Type :=
| Returned (a : A)
| Raised (e : exn).
Arguments Returned {A} a.
Arguments Raised {A} e.

Global Instance outcome_ret : MRet outcome := fun A a => Returned a.
Global Instance outcome_bind : MBind outcome := fun A B f m =>
  match m with
  | Returned a => f a
  | Raised e => Raised e
  end.

(** Calls that cross a component boundary, in the order they are made. *)
Inductive event : Type :=
| SimilaritySearchCall (query : string) (n_results : Z)
| CollectionQueryCall (query_text : string) (n_results : Z).

Definition Run (A : Type) : Type := list event -> outcome A * list event.

Global Instance Run_ret : MRet Run := fun A a log => (Returned a, log).
Global Instance Run_bind : MBind Run := fun A B f m log =>
  match m log with
  | (Returned a, log') => f a log'
  | (Raised e, log') => (Raised e, log')
  end.

Definition emit (ev : event) : Run unit := fun log => (Returned tt, log ++ [ev]).
Definition lift {A} (o : outcome A) : Run A := fun log => (o, log).

(** ** [app/core/config.py] *)

Class Settings := {
  retrieval_default_top_k : Z;
  retrieval_max_k : Z;
  retrieval_min_score : float;
  max_context_characters : Z
}.

(** The values used when the environment overrides nothing. *)
Definition default_settings : Settings := {|
  retrieval_default_top_k := 8;
  retrieval_max_k := 12;
  retrieval_min_score := PyFloat.three_tenths;
  max_context_characters := 6000
|}.

(** ** [app/models/schemas.py] *)

Module QueryRequest.
Record t := { question : string; max_sources : option Z }.
End QueryRequest.

Module InternalChunk.
Record t := {
  id : string;
  text : string;
  score : float;
  metadata : Metadata
}.
End InternalChunk.

Module SourceChunk.
Record t := {
  id : string;
  citation_id : Z;
  score : float;
  source : option string;
  rank : Z;
  text : string;
  metadata : Metadata
}.

(** The constructor call [SourceChunk(id=..., ...)]: pydantic checks
    [score] against [ge=0.0, le=1.0] and [rank] against [ge=1], and turns
    a non-string [source] into its [str]. *)
Definition make `{PyLib} (id : string) (citation_id : Z) (score : float)
    (source : option scalar) (rank : Z) (text : string)
    (metadata : Metadata) : outcome t :=
  if negb (PyFloat.leb PyFloat.zero score && PyFloat.leb score PyFloat.one)
  then Raised (ValidationError "score")
  else if negb (1 <=? rank)
  then Raised (ValidationError "rank")
  else Returned {| id := id; citation_id := citation_id; score := score;
                   source := py_str <$> source; rank := rank; text := text;
                   metadata := metadata |}.
End SourceChunk.

Module QueryResponse.
Record t := { answer : string; sources : list SourceChunk.t }.
End QueryResponse.

(** ** [app/services/chroma_repository.py] *)

(** The dictionary [collection.query] returns for one query text. A field is
    [None] when its key is absent, and otherwise holds the inner list for
    the single query text ([raw[key][0]]); a document or a metadata entry
    may itself be [None]. For [ids], [None] also stands for a value that
    [if raw.get("ids")] finds false. Distances are floats, so
    [float(distance)] returns its argument. *)
Module QueryResult.
Record t := {
  documents : option (list (option string));
  metadatas : option (list (option Metadata));
  distances : option (list float);
  ids : option (list string)
}.
End QueryResult.

(** The Chroma collection held by the repository: the external store. *)
Class ChromaCollection := {
  query : string -> Z -> outcome QueryResult.t
}.

Module ChromaRepository.

(** [max(0.0, min(1.0, 1.0 - (float(distance) / 2.0)))] *)
Definition similarity (distance : float) : float :=
  PyFloat.max PyFloat.zero
    (PyFloat.min PyFloat.one
       (PyFloat.sub PyFloat.one (PyFloat.div distance PyFloat.two))).

(** The [try: self._collection.query(...) except Exception] block. *)
Definition guarded_query `{ChromaCollection} (q : string) (n_results : Z)
    : Run QueryResult.t :=
  fun log =>
    let log' := log ++ [CollectionQueryCall q n_results] in
    match query q n_results with
    | Returned raw => (Returned raw, log')
    | Raised exc => (Raised (ChromaUnavailableError "ChromaDB query failed"), log')
    end.

(** One iteration of the loop over [enumerate(documents)]. *)
Definition chunk_at (metadatas : list (option Metadata)) (distances : list float)
    (ids : list string) (idx : nat) (doc : option string) : InternalChunk.t :=
  let text := default ""%string doc in
  let metadata := default (Some ∅) (metadatas !! idx) in
  let distance := default PyFloat.zero (distances !! idx) in
  let similarity := similarity distance in
  let chunk_id := default (PyStr.str_of_int (Z.of_nat idx)) (ids !! idx) in
  {| InternalChunk.id := chunk_id;
     InternalChunk.text := text;
     InternalChunk.score := similarity;
     InternalChunk.metadata := default ∅ metadata |}.

(** The part of [similarity_search] that follows the query. *)
Definition chunks_of_raw (raw : QueryResult.t) : list InternalChunk.t :=
  let documents := default [] (QueryResult.documents raw) in
  let metadatas := default [] (QueryResult.metadatas raw) in
  let distances := default [] (QueryResult.distances raw) in
  let ids :=
    match QueryResult.ids raw with
    | Some l => l
    | None => (fun i => PyStr.str_of_int (Z.of_nat i)) <$> seq 0 (length documents)
    end in
  match documents with
  | [] => []
  | _ => imap (chunk_at metadatas distances ids) documents
  end.

Definition similarity_search `{Settings} `{ChromaCollection}
    (q : string) (n_results : Z) : Run (list InternalChunk.t) :=
  _ ← emit (SimilaritySearchCall q n_results);
  let n_results := Z.max 1 (Z.min n_results retrieval_max_k) in
  raw ← guarded_query q n_results;
  mret (chunks_of_raw raw).

End ChromaRepository.

(** ** [app/services/rag_service.py] *)

Module RAGService.

Local Open Scope string_scope.

(** [c.score >= min_score] *)
Definition score_ok (min_score : float) (c : InternalChunk.t) : bool :=
  PyFloat.leb min_score (InternalChunk.score c).

(** [filtered.sort(key=lambda c: c.score, reverse=True)]. Python's sort is
    stable, compares keys with [<] only, and with [reverse=True] orders the
    list by decreasing key while elements of equal key keep their order.
    [insert_desc c l] puts [c] in front of the first element whose key is
    not strictly larger. *)
Fixpoint insert_desc (c : InternalChunk.t) (l : list InternalChunk.t)
    : list InternalChunk.t :=
  match l with
  | [] => [c]
  | d :: l' =>
      if PyFloat.ltb (InternalChunk.score c) (InternalChunk.score d)
      then d :: insert_desc c l'
      else c :: d :: l'
  end.

Definition sort_by_score_desc (l : list InternalChunk.t) : list InternalChunk.t :=
  foldr insert_desc [] l.

(** Lines 97-98: the filter and the sort. *)
Definition filtered `{Settings} (chunks : list InternalChunk.t)
    : list InternalChunk.t :=
  sort_by_score_desc (List.filter (score_ok retrieval_min_score) chunks).

(** The [for chunk in filtered] loop, with its [break] and [continue];
    the result is the pair of [selected] and [total_chars]. *)
Fixpoint select_loop (max_sources max_context_chars : Z)
    (todo selected : list InternalChunk.t) (total_chars : Z)
    : list InternalChunk.t * Z :=
  match todo with
  | [] => (selected, total_chars)
  | chunk :: rest =>
      if Z.of_nat (length selected) >=? max_sources
      then (selected, total_chars)
      else
        let prospective_len := total_chars + PyStr.len (InternalChunk.text chunk) in
        if prospective_len >? max_context_chars
        then select_loop max_sources max_context_chars rest selected total_chars
        else select_loop max_sources max_context_chars rest
               (selected ++ [chunk]) prospective_len
  end.

Definition _select_chunks `{Settings} (chunks : list InternalChunk.t)
    (max_sources : Z) : list InternalChunk.t :=
  let max_context_chars := max_context_characters in
  fst (select_loop max_sources max_context_chars (filtered chunks) [] 0).

(** [chunk.metadata.get("source") or chunk.metadata.get("file_name")] *)
Definition source_name_of (chunk : InternalChunk.t) : option scalar :=
  py_or (InternalChunk.metadata chunk !! "source")
        (InternalChunk.metadata chunk !! "file_name").

(** The body of the loop that fills [summary_lines]. *)
Definition summary_line `{PyLib} (idx : Z) (chunk : InternalChunk.t) : string :=
  let snippet :=
    shorten (PyStr.replace_char (ascii_of_nat 10) " " (InternalChunk.text chunk)) 260 in
  let source_name := source_name_of chunk in
  let prefix := "[" ++ PyStr.str_of_int idx ++ "]" in
  let prefix :=
    if is_truthy source_name
    then prefix ++ " (" ++ from_option py_str "None" source_name ++ ")"
    else prefix in
  prefix ++ " " ++ snippet.

(** [for idx, chunk in enumerate(chunks, start=1)] with [idx] the next
    index and [summary_lines] the lines appended so far. *)
Fixpoint summary_loop `{PyLib} (idx : Z) (chunks : list InternalChunk.t)
    (summary_lines : list string) : list string :=
  match chunks with
  | [] => summary_lines
  | chunk :: rest =>
      summary_loop (idx + 1) rest (summary_lines ++ [summary_line idx chunk])
  end.

Definition summary_lines `{PyLib} (chunks : list InternalChunk.t) : list string :=
  summary_loop 1 chunks [].

Definition narrative : string :=
  "The relevant documentation describes how the internal RAG-powered " ++
  "assistant is containerized with a FastAPI application talking to " ++
  "a ChromaDB vector store over HTTP. It highlights how assessment " ++
  "design content, Docker Compose configuration (including persistent " ++
  "volumes under /data), and RAG settings are stored as chunks in the " ++
  "vector database. Retrieval is tuned to pull multiple high-scoring " ++
  "chunks so complex questions can be answered using a broader span " ++
  "of context while still filtering out irrelevant noise.".

Definition references_note : string :=
  "Each numbered reference below corresponds to a specific chunk that " ++
  "was retrieved from the knowledge base and used as context. " ++
  "You can use these citations to audit or refine the underlying " ++
  "documentation.".

Definition _generate_answer `{PyLib} (question : string)
    (chunks : list InternalChunk.t) : string :=
  let context_summary := PyStr.join PyStr.nl (summary_lines chunks) in
  let answer_sections :=
    [ "Question: " ++ question;
      "";
      "Based on the retrieved knowledge base content, here is a synthesized answer:";
      "";
      narrative;
      "";
      references_note;
      "";
      "Sources:";
      context_summary ] in
  PyStr.join PyStr.nl answer_sections.

(** The loop of [_format_sources]; a failed validation of one
    [SourceChunk] leaves the loop with the exception. *)
Fixpoint format_loop `{PyLib} (idx : Z) (chunks : list InternalChunk.t)
    (sources : list SourceChunk.t) : outcome (list SourceChunk.t) :=
  match chunks with
  | [] => Returned sources
  | chunk :: rest =>
      let source_name := source_name_of chunk in
      sc ← SourceChunk.make (InternalChunk.id chunk) idx
             (InternalChunk.score chunk) source_name idx
             (InternalChunk.text chunk) (InternalChunk.metadata chunk);
      format_loop (idx + 1) rest (sources ++ [sc])
  end.

Definition _format_sources `{PyLib} (chunks : list InternalChunk.t)
    : outcome (list SourceChunk.t) :=
  format_loop 1 chunks [].

(** The answer returned when the store has no candidate at all. *)
Definition no_content_answer : string :=
  "I could not find any relevant content in the knowledge base " ++
  "to answer this question. If the topic is important, please " ++
  "consider adding documentation about it to the RAG corpus.".

(** [payload.max_sources or self._settings.retrieval_default_top_k] *)
Definition resolve_max_sources `{Settings} (payload : QueryRequest.t) : Z :=
  match QueryRequest.max_sources payload with
  | Some n => if (n =? 0)%Z then retrieval_default_top_k else n
  | None => retrieval_default_top_k
  end.

Definition answer_question `{Settings} `{PyLib} `{ChromaCollection}
    (payload : QueryRequest.t) : Run QueryResponse.t :=
  let question := PyStr.strip (QueryRequest.question payload) in
  let max_sources := resolve_max_sources payload in
  candidate_chunks ←
    ChromaRepository.similarity_search question
      (Z.max max_sources retrieval_default_top_k);
  match candidate_chunks with
  | [] =>
      mret {| QueryResponse.answer := no_content_answer;
              QueryResponse.sources := [] |}
  | _ =>
      let selected_chunks := _select_chunks candidate_chunks max_sources in
      let answer_text := _generate_answer question selected_chunks in
      sources ← lift (_format_sources selected_chunks);
      mret {| QueryResponse.answer := answer_text;
              QueryResponse.sources := sources |}
  end.

End RAGService.

(** ** The specification's own wording, for comparison with the code *)

Module Spec.

(** [clamp(x, lo, hi)]: [lo] when [x <= lo], [hi] when [hi <= x], and [x]
    itself in between. *)
Definition clamp (x lo hi : float) : float :=
  if PyFloat.leb x lo then lo
  else if PyFloat.leb hi x then hi
  else x.

(** Step 3 of the Chunk Selector: walk the sorted list to its end and
    accept a chunk exactly when the accepted count is below [maxCount] and
    the running total plus the length of its text does not exceed
    [maxTotalChars]; any other chunk is passed over. *)
Fixpoint greedy (maxCount maxTotalChars : Z) (sorted : list InternalChunk.t)
    (acceptedCount runningCharacterTotal : Z) : list InternalChunk.t :=
  match sorted with
  | [] => []
  | chunk :: rest =>
      let size := PyStr.len (InternalChunk.text chunk) in
      if (acceptedCount <? maxCount)
         && (runningCharacterTotal + size <=? maxTotalChars)
      then chunk :: greedy maxCount maxTotalChars rest
                      (acceptedCount + 1) (runningCharacterTotal + size)
      else greedy maxCount maxTotalChars rest acceptedCount runningCharacterTotal
  end.

End Spec.

(** ** Observations used to state the properties *)

(** Sum of [len(text)] over a list of chunks. *)
Definition total_text_len (l : list InternalChunk.t) : Z :=
  foldr (fun c acc => PyStr.len (InternalChunk.text c) + acc) 0 l.

(** The score lies in [[0, 1]], the invariant of a scored chunk. *)
Definition score_in_range (c : InternalChunk.t) : bool :=
  PyFloat.leb PyFloat.zero (InternalChunk.score c)
  && PyFloat.leb (InternalChunk.score c) PyFloat.one.

(** [descending a b]: [b] may follow [a] in a list sorted by decreasing
    similarity. *)
Definition descending (a b : InternalChunk.t) : Prop :=
  PyFloat.leb (InternalChunk.score b) (InternalChunk.score a) = true.

(** The chunks of a list whose similarity equals [k]. *)
Definition with_score (k : float) (l : list InternalChunk.t)
    : list InternalChunk.t :=
  List.filter (fun c => PyFloat.eqb (InternalChunk.score c) k) l.

(** [split_at stop s]: the text of [s] before the first [stop] and the text
    after it. *)
Fixpoint split_at (stop : ascii) (s : string) : option (string * string) :=
  match s with
  | EmptyString => None
  | String c s' =>
      if Ascii.eqb c stop then Some (EmptyString, s')
      else '(before, after) ← split_at stop s'; Some (String c before, after)
  end.

(** The citation id a reader finds at the head of a line of the Sources
    section: the decimal number between the leading bracket and the first
    closing bracket. *)
Definition printed_citation_id (line : string) : option Z :=
  match line with
  | String c rest =>
      if Ascii.eqb c "["
      then '(digits, _) ← split_at "]" rest;
           Z.of_int <$> NilZero.int_of_string digits
      else None
  | EmptyString => None
  end.

(** Everything [_generate_answer] writes in front of the source lines. *)
Definition answer_preamble (question : string) : string :=
  PyStr.join PyStr.nl
    [ ("Question: " ++ question)%string;
      ""%string;
      "Based on the retrieved knowledge base content, here is a synthesized answer:"%string;
      ""%string;
      RAGService.narrative;
      ""%string;
      RAGService.references_note;
      ""%string;
      "Sources:"%string ].

(** [describes s c]: the structured source [s] carries the id, text,
    score, metadata and source label of the chunk [c]. *)
Definition describes `{PyLib} (s : SourceChunk.t) (c : InternalChunk.t) : Prop :=
  SourceChunk.id s = InternalChunk.id c
  /\ SourceChunk.text s = InternalChunk.text c
  /\ SourceChunk.score s = InternalChunk.score c
  /\ SourceChunk.metadata s = InternalChunk.metadata c
  /\ SourceChunk.source s = py_str <$> RAGService.source_name_of c.

(** *** Reading the Sources section back from the composed answer *)








(** Number of queries sent to the Chroma collection in a log. *)
Definition collection_queries (log : list event) : nat :=
  length (List.filter
            (fun ev => match ev with CollectionQueryCall _ _ => true | _ => false end)
            log).

(** ** Sample data *)

Module Samples.

Local Open Scope string_scope.

(** A stand-in for the standard library: texts short enough to be left as
    they are by [shorten]. *)
Definition lib : PyLib := {|
  shorten := fun s _ => s;
  float_repr := fun _ => "0.0"
|}.

Definition decimal (numerator denominator : Z) : float :=
  PyFloat.div (PyFloat.of_Z numerator) (PyFloat.of_Z denominator).

Definition chunk (id text : string) (score : float) : InternalChunk.t :=
  {| InternalChunk.id := id; InternalChunk.text := text;
     InternalChunk.score := score; InternalChunk.metadata := ∅ |}.

Definition fifty : string := "01234567890123456789012345678901234567890123456789".

(** Scenario B: texts of length 50 and 5, scores 0.9 and 0.8. *)
Definition long_chunk : InternalChunk.t := chunk "c1" fifty (decimal 9 10).
Definition short_chunk : InternalChunk.t := chunk "c2" "hello" (decimal 8 10).

Definition tight_settings : Settings := {|
  retrieval_default_top_k := 8;
  retrieval_max_k := 12;
  retrieval_min_score := PyFloat.three_tenths;
  max_context_characters := 10
|}.

(** A configuration with no room for context at all. *)
Definition zero_budget_settings : Settings := {|
  retrieval_default_top_k := 8;
  retrieval_max_k := 12;
  retrieval_min_score := PyFloat.three_tenths;
  max_context_characters := 0
|}.

(** A candidate whose document is missing: its text is empty. *)
Definition empty_chunk : InternalChunk.t := chunk "0" "" PyFloat.one.

(** A chunk whose similarity is exactly the default threshold. *)
Definition threshold_chunk : InternalChunk.t :=
  chunk "t" "on the line" PyFloat.three_tenths.

(** Scenario A: raw distances 0.1, 0.5 and 1.9. *)
Definition scenario_a : QueryResult.t := {|
  QueryResult.documents := Some [Some "alpha"; Some "beta"; Some "gamma"];
  QueryResult.metadatas :=
    Some [Some {["source" := SStr "a.md"]}; Some {["file_name" := SStr "b.md"]}; None];
  QueryResult.distances := Some [decimal 1 10; decimal 5 10; decimal 19 10];
  QueryResult.ids := Some ["a"; "b"; "c"]
|}.

(** One candidate only, too far from the question to pass the threshold. *)
Definition far_candidate : QueryResult.t := {|
  QueryResult.documents := Some [Some "unrelated"];
  QueryResult.metadatas := Some [None];
  QueryResult.distances := Some [decimal 19 10];
  QueryResult.ids := Some ["far"]
|}.

(** Two documents but a single distance. *)
Definition short_distances : QueryResult.t := {|
  QueryResult.documents := Some [Some "first"; Some "second"];
  QueryResult.metadatas := Some [None; None];
  QueryResult.distances := Some [decimal 19 10];
  QueryResult.ids := Some ["d0"; "d1"]
|}.

Definition store (raw : QueryResult.t) : ChromaCollection :=
  {| query := fun _ _ => Returned raw |}.

Definition store_down : ChromaCollection :=
  {| query := fun _ _ => Raised (ClientException "connection refused") |}.

Definition ask (question : string) (max_sources : option Z) : QueryRequest.t :=
  {| QueryRequest.question := question; QueryRequest.max_sources := max_sources |}.

End Samples.

(** ** The rest of [app/core/config.py] *)

(** The settings that the retrieval pipeline does not read. *)
Class AppSettings := {
  app_name : string;
  app_version : string;
  chroma_host : string;
  chroma_port : Z;
  chroma_collection : string;
  log_level : string
}.

Definition default_app_settings : AppSettings := {|
  app_name := "Utkrusht RAG Assistant";
  app_version := "1.0.0";
  chroma_host := "chroma";
  chroma_port := 8000;
  chroma_collection := "utkrusht_knowledge";
  log_level := "INFO"
|}.

(** ** Validation of [QueryRequest] in [app/models/schemas.py] *)

(** [QueryRequest(question=..., max_sources=...)]: [question] needs
    [min_length=1] and a given [max_sources] needs [ge=1]. *)
Definition validate_query_request (question : string) (max_sources : option Z)
    : outcome QueryRequest.t :=
  if PyStr.len question <? 1
  then Raised (ValidationError "question")
  else if match max_sources with Some n => n <? 1 | None => false end
  then Raised (ValidationError "max_sources")
  else Returned {| QueryRequest.question := question;
                   QueryRequest.max_sources := max_sources |}.

(** Every character of the string is white space. *)
Fixpoint all_isspace (s : string) : bool :=
  match s with
  | EmptyString => true
  | String c s' => PyStr.isspace c && all_isspace s'
  end.

(** ** The repository as an object: construction, health check, singletons *)

(** The client [chromadb.HttpClient(...)] returns. *)
Record ChromaClient := {
  heartbeat : outcome Z;
  get_or_create_collection : string -> outcome ChromaCollection
}.

(** The [chromadb] module: [HttpClient(host=..., port=..., settings=...)]. *)
Class Chromadb := {
  HttpClient : string -> Z -> outcome ChromaClient
}.

(** [str(exc)]: the message of a [ChromaUnavailableError] (it passes its
    message to [RuntimeError]) and the text of a client exception. The
    report pydantic prints for a validation error is not modelled; no
    caller takes the [str] of one. *)
Definition str_of_exn (exc : exn) : string :=
  match exc with
  | ChromaUnavailableError message => message
  | ValidationError field => field
  | ClientException detail => detail
  end.

Module Repository.

Record t := {
  _host : string;
  _port : Z;
  _collection_name : string;
  _client : ChromaClient;
  _collection : ChromaCollection
}.

(** [ChromaRepository.__init__]: any exception raised while connecting or
    while fetching the collection becomes a [ChromaUnavailableError] that
    carries its text. *)
Definition __init__ `{Chromadb} (host : string) (port : Z)
    (collection_name : string) : outcome t :=
  match
    client ← HttpClient host port;
    collection ← get_or_create_collection client collection_name;
    mret (client, collection)
  with
  | Returned (client, collection) =>
      Returned {| _host := host; _port := port;
                  _collection_name := collection_name;
                  _client := client; _collection := collection |}
  | Raised exc => Raised (ChromaUnavailableError (str_of_exn exc))
  end.

(** [healthcheck]: the heartbeat is an [int] already, so [int(heartbeat)]
    returns it. *)
Definition healthcheck (self : t) : outcome Z :=
  match heartbeat (_client self) with
  | Returned heartbeat => Returned heartbeat
  | Raised _ => Raised (ChromaUnavailableError "ChromaDB is not reachable")
  end.

Definition similarity_search `{Settings} (self : t) (q : string) (n_results : Z)
    : Run (list InternalChunk.t) :=
  ChromaRepository.similarity_search (H0 := _collection self) q n_results.

End Repository.

Module Service.

Record t := {
  _chroma_repo : Repository.t;
  _settings : Settings
}.

(** [RAGService.__init__]: [get_settings()] is the ambient configuration. *)
Definition __init__ `{settings : Settings} (chroma_repo : Repository.t) : t :=
  {| _chroma_repo := chroma_repo; _settings := settings |}.

Definition answer_question `{PyLib} (self : t) (payload : QueryRequest.t)
    : Run QueryResponse.t :=
  RAGService.answer_question (H := _settings self)
    (H1 := Repository._collection (_chroma_repo self)) payload.

End Service.

(** The two module-level variables [_chroma_repo] and [_rag_service]. *)
Module Globals.
Record t := {
  _chroma_repo : option Repository.t;
  _rag_service : option Service.t
}.
Definition initial : t := {| _chroma_repo := None; _rag_service := None |}.
End Globals.

(** [get_chroma_repository]: the new value of the globals comes with the
    result. *)
Definition get_chroma_repository `{Chromadb} `{AppSettings} (g : Globals.t)
    : outcome Repository.t * Globals.t :=
  match Globals._chroma_repo g with
  | Some repo => (Returned repo, g)
  | None =>
      match Repository.__init__ chroma_host chroma_port chroma_collection with
      | Returned repo =>
          (Returned repo,
           {| Globals._chroma_repo := Some repo;
              Globals._rag_service := Globals._rag_service g |})
      | Raised e => (Raised e, g)
      end
  end.

Definition get_rag_service `{Chromadb} `{AppSettings} `{Settings} (g : Globals.t)
    : outcome Service.t * Globals.t :=
  match Globals._rag_service g with
  | Some service => (Returned service, g)
  | None =>
      match get_chroma_repository g with
      | (Returned chroma_repo, g') =>
          let service := Service.__init__ chroma_repo in
          (Returned service,
           {| Globals._chroma_repo := Globals._chroma_repo g';
              Globals._rag_service := Some service |})
      | (Raised e, g') => (Raised e, g')
      end
  end.

(** ** [app/api/routes.py] and [app/main.py] *)

Module Http.

Inductive body : Type :=
| Json (content : gmap string scalar)
| Model (response : QueryResponse.t).

Record Response := {
  status_code : Z;
  content : body;
  headers : gmap string string
}.

(** What an endpoint function may raise. *)
Inductive failure : Type :=
| HTTPException (status_code : Z) (detail : string)
| Unhandled (e : exn).

(** An incoming request; [state_request_id] is [request.state.request_id].
    Header names are taken in one spelling. *)
Record Request := {
  method : string;
  path : string;
  request_headers : gmap string string;
  state_request_id : option string
}.

End Http.

(** [str(uuid.uuid4())] for the request at hand. *)
Class Uuid := { uuid4 : string }.

Module App.

Local Open Scope string_scope.

(** [query_rag] of [routes.py]. *)
Definition query_rag `{PyLib} (rag_service : Service.t) (payload : QueryRequest.t)
    : Run QueryResponse.t :=
  Service.answer_question rag_service payload.

(** [chroma_unavailable_handler]; the argument is [exc.message]. *)
Definition chroma_unavailable_handler (message : string) : Http.Response :=
  {| Http.status_code := 503;
     Http.content :=
       Http.Json
         {[ "detail" :=
              SStr "Vector store is currently unavailable. Please try again later.";
            "reason" := SStr message ]};
     Http.headers := ∅ |}.

(** The query route as the application serves it: a returned model is a 200
    response, a [ChromaUnavailableError] goes to the handler registered for
    it, any other exception is left to the framework. *)
Definition post_query `{PyLib} (rag_service : Service.t) (payload : QueryRequest.t)
    : Run Http.Response :=
  fun log =>
    match query_rag rag_service payload log with
    | (Returned response, log') =>
        (Returned {| Http.status_code := 200;
                     Http.content := Http.Model response;
                     Http.headers := ∅ |}, log')
    | (Raised (ChromaUnavailableError message), log') =>
        (Returned (chroma_unavailable_handler message), log')
    | (Raised e, log') => (Raised e, log')
    end.

(** The [/health] endpoint function. *)
Definition health `{AppSettings} (chroma_repo : Repository.t)
    : Http.failure + gmap string scalar :=
  match Repository.healthcheck chroma_repo with
  | Raised (ChromaUnavailableError message) =>
      inl (Http.HTTPException 503 (str_of_exn (ChromaUnavailableError message)))
  | Raised e => inl (Http.Unhandled e)
  | Returned heartbeat =>
      inr {[ "status" := SStr "ok";
             "app_version" := SStr app_version;
             "chroma_heartbeat" := SInt heartbeat ]}
  end.

(** [request.headers.get("X-Request-ID") or str(uuid.uuid4())] *)
Definition request_id_of `{Uuid} (request : Http.Request) : string :=
  match Http.request_headers request !! "X-Request-ID" with
  | Some given => if String.eqb given "" then uuid4 else given
  | None => uuid4
  end.

(** The middleware [add_request_context], without its timing and logging. *)
Definition add_request_context `{Uuid} (request : Http.Request)
    (call_next : Http.Request -> Run Http.Response) : Run Http.Response :=
  let request_id := request_id_of request in
  let request :=
    {| Http.method := Http.method request;
       Http.path := Http.path request;
       Http.request_headers := Http.request_headers request;
       Http.state_request_id := Some request_id |} in
  fun log =>
    match call_next request log with
    | (Raised e, log') => (Raised e, log')
    | (Returned response, log') =>
        (Returned {| Http.status_code := Http.status_code response;
                     Http.content := Http.content response;
                     Http.headers :=
                       <["X-Request-ID" := request_id]> (Http.headers response) |},
         log')
    end.

End App.

(** ** [init/init_chroma.py] *)

Module InitChroma.

Local Open Scope string_scope.

Record Doc := { id : string; text : string; metadata : Metadata }.

Definition _build_sample_corpus : list Doc :=
  [ {| id := "assessment-design-1";
       text :=
         "Utkrusht assessments are designed to be modular and reusable. " ++
         "Each assessment specifies a clear task description, expected " ++
         "outcomes, and competencies such as Retrieval_Augmented_Generation.";
       metadata := {[ "source" := SStr "docs/assessments/overview.md";
                      "topic" := SStr "assessments" ]} |};
    {| id := "docker-compose-1";
       text :=
         "The RAG assistant is deployed with Docker Compose. " ++
         "The FastAPI app, ChromaDB, and an initialization service " ++
         "are defined as separate services. ChromaDB mounts a named " ++
         "Docker volume at /data to persist vector store state.";
       metadata := {[ "source" := SStr "docs/deploy/docker-compose.md";
                      "topic" := SStr "docker" ]} |};
    {| id := "rag-config-1";
       text :=
         "RAG configuration includes the number of results (top_k) " ++
         "retrieved from ChromaDB, similarity thresholds, and context " ++
         "size limits. Increasing top_k and enforcing a minimum score " ++
         "helps answer complex questions with enough relevant context " ++
         "while avoiding unrelated noise.";
       metadata := {[ "source" := SStr "docs/rag/configuration.md";
                      "topic" := SStr "rag" ]} |};
    {| id := "observability-1";
       text :=
         "Production deployments of the RAG assistant should expose " ++
         "health endpoints, structured logging with request ids, and " ++
         "metrics about retrieval latency and result counts. This helps " ++
         "engineering teams debug connectivity issues with ChromaDB.";
       metadata := {[ "source" := SStr "docs/ops/observability.md";
                      "topic" := SStr "ops" ]} |} ].

(** The documents of the collection by id. *)
Abbreviation Store := (gmap string (string * Metadata)) (only parsing).

(** The calls made on the collection. *)
Inductive call : Type :=
| GetCall
| AddCall (ids : list string) (documents : list string) (metadatas : list Metadata).

(** [collection.add(ids=..., documents=..., metadatas=...)] for ids that the
    collection does not hold yet: the documents are stored under their ids. *)
Definition add (ids : list string) (documents : list string)
    (metadatas : list Metadata) (store : Store) : Store :=
  list_to_map (zip ids (zip documents metadatas)) ∪ store.

(** The body of [main] once the collection is at hand, for the documents
    [docs]: the collection afterwards and the calls made. *)
Definition seed (docs : list Doc) (store : Store) : Store * list call :=
  let existing_ids : gset string := dom store in
  let new_docs := filter (fun d => id d ∉ existing_ids) docs in
  match new_docs with
  | [] => (store, [GetCall])
  | _ =>
      let ids := id <$> new_docs in
      let documents := text <$> new_docs in
      let metadatas := metadata <$> new_docs in
      (add ids documents metadatas store, [GetCall; AddCall ids documents metadatas])
  end.

Definition main (store : Store) : Store * list call :=
  seed _build_sample_corpus store.

End InitChroma.

(** ** More sample data *)

Module MoreSamples.

Local Open Scope string_scope.

Definition client_up : ChromaClient := {|
  heartbeat := Returned 1700000000;
  get_or_create_collection := fun _ => Returned (Samples.store Samples.scenario_a)
|}.

Definition client_down : ChromaClient := {|
  heartbeat := Raised (ClientException "timed out");
  get_or_create_collection := fun _ => Raised (ClientException "timed out")
|}.

Definition server_up : Chromadb := {| HttpClient := fun _ _ => Returned client_up |}.

Definition server_down : Chromadb :=
  {| HttpClient := fun _ _ => Raised (ClientException "connection refused") |}.

Definition repo_up : Repository.t := {|
  Repository._host := "chroma"; Repository._port := 8000;
  Repository._collection_name := "utkrusht_knowledge";
  Repository._client := client_up;
  Repository._collection := Samples.store Samples.scenario_a
|}.

Definition repo_down : Repository.t := {|
  Repository._host := "chroma"; Repository._port := 8000;
  Repository._collection_name := "utkrusht_knowledge";
  Repository._client := client_down;
  Repository._collection := Samples.store_down
|}.

Definition service_up : Service.t :=
  Service.__init__ (settings := default_settings) repo_up.

Definition with_request_id : Http.Request := {|
  Http.method := "POST"; Http.path := "/api/rag/query";
  Http.request_headers := {[ "X-Request-ID" := "req-42" ]};
  Http.state_request_id := None
|}.

Definition fixed_uuid : Uuid := {| uuid4 := "123e4567-e89b-42d3-a456-426614174000" |}.

Definition plain_ok (request : Http.Request) : Run Http.Response :=
  fun log => (Returned {| Http.status_code := 200;
                          Http.content := Http.Json ∅;
                          Http.headers := {[ "content-type" := "application/json" ]} |},
              log).

(** Two chunks of equal score and a third, better one. *)
Definition tie_first : InternalChunk.t := Samples.chunk "t1" "one" (Samples.decimal 5 10).
Definition tie_second : InternalChunk.t := Samples.chunk "t2" "two" (Samples.decimal 5 10).
Definition best : InternalChunk.t := Samples.chunk "b" "best" (Samples.decimal 9 10).

(** A chunk whose score is outside [[0, 1]]. *)
Definition overscored : InternalChunk.t := Samples.chunk "o" "over" PyFloat.two.

(** A response without ids. *)
Definition without_ids : QueryResult.t := {|
  QueryResult.documents := Some [Some "first"; None; Some "third"];
  QueryResult.metadatas := None;
  QueryResult.distances := Some [Samples.decimal 1 10];
  QueryResult.ids := None
|}.

(** A collection that already holds one of the sample documents, with a
    text of its own. *)
Definition partly_seeded : gmap string (string * Metadata) :=
  {[ "docker-compose-1" := ("edited by hand", ∅);
     "unrelated" := ("kept", ∅) ]}.



(** The response to scenario A with the default settings. *)
Definition scenario_a_response : QueryResponse.t :=
  Eval vm_compute in
    match fst (RAGService.answer_question (H := default_settings)
                 (H0 := Samples.lib) (H1 := Samples.store Samples.scenario_a)
                 (Samples.ask "what is alpha?" None) []) with
    | Returned response => response
    | Raised _ => {| QueryResponse.answer := ""; QueryResponse.sources := [] |}
    end.




End MoreSamples.

(* ===================================================================== *)
(** * Part II. Properties                                                 *)
(* ===================================================================== *)

(** ** Order and rounding facts about floats *)

Module PyFloatFacts.
Import PyFloat.

(** *** The comparisons are the lexicographic order of the keys *)

Lemma compare_key (x y : float) :
  SFcompare x y =
    if is_nan x || is_nan y then None else Some (lex_compare (key x) (key y)).
Proof.
  destruct x as [sx|sx| |sx mx ex], y as [sy|sy| |sy my ey];
    try destruct sx; try destruct sy; try reflexivity.
  (* both negative: the order of exponents and mantissas is reversed *)
  cbn [SFcompare is_nan orb key lex_compare]. rewrite Z.compare_refl.
  rewrite Z.compare_opp.
  destruct (Z.compare_spec ey ex), (Z.compare_spec ex ey); try lia; try reflexivity.
Qed.

Lemma leb_key (x y : float) :
  leb x y = negb (is_nan x || is_nan y) &&
            match lex_compare (key x) (key y) with Gt => false | _ => true end.
Proof.
  unfold leb, SFleb. rewrite compare_key.
  destruct (is_nan x || is_nan y); [reflexivity|]. cbn.
  destruct (lex_compare _ _); reflexivity.
Qed.

Lemma ltb_key (x y : float) :
  ltb x y = negb (is_nan x || is_nan y) &&
            match lex_compare (key x) (key y) with Lt => true | _ => false end.
Proof.
  unfold ltb, SFltb. rewrite compare_key.
  destruct (is_nan x || is_nan y); [reflexivity|]. cbn.
  destruct (lex_compare _ _); reflexivity.
Qed.

Lemma eqb_key (x y : float) :
  eqb x y = negb (is_nan x || is_nan y) &&
            match lex_compare (key x) (key y) with Eq => true | _ => false end.
Proof.
  unfold eqb, SFeqb. rewrite compare_key.
  destruct (is_nan x || is_nan y); [reflexivity|]. cbn.
  destruct (lex_compare _ _); reflexivity.
Qed.

Lemma lex_compare_spec (a b : Z * Z * Z) :
  let '(a1, a2, a3) := a in
  let '(b1, b2, b3) := b in
  match lex_compare a b with
  | Lt => a1 < b1 \/ (a1 = b1 /\ (a2 < b2 \/ (a2 = b2 /\ a3 < b3)))
  | Eq => a1 = b1 /\ a2 = b2 /\ a3 = b3
  | Gt => b1 < a1 \/ (a1 = b1 /\ (b2 < a2 \/ (a2 = b2 /\ b3 < a3)))
  end.
Proof.
  destruct a as [[a1 a2] a3], b as [[b1 b2] b3]. cbn.
  destruct (Z.compare_spec a1 b1), (Z.compare_spec a2 b2), (Z.compare_spec a3 b3); lia.
Qed.

(** Decides a statement about [ltb], [leb] and [eqb] on float variables:
    every comparison becomes a comparison of keys, every comparison of keys
    becomes linear arithmetic. *)
Ltac by_keys :=
  rewrite ?ltb_key, ?leb_key, ?eqb_key;
  repeat match goal with
         | |- context [is_nan ?x] => is_var x; destruct (is_nan x)
         end;
  cbn [negb orb andb];
  repeat match goal with
         | |- context [lex_compare ?a ?b] =>
             generalize (lex_compare_spec a b); destruct (lex_compare a b)
         end;
  repeat match goal with
         | |- context [key ?x] => destruct (key x) as [[? ?] ?]
         end;
  cbn; intros; try discriminate; try reflexivity; try lia.

Lemma leb_not_nan (x y : float) :
  leb x y = true -> is_nan x = false /\ is_nan y = false.
Proof.
  rewrite leb_key. destruct (is_nan x), (is_nan y); cbn; intuition discriminate.
Qed.

Lemma leb_trans (x y z : float) :
  leb x y = true -> leb y z = true -> leb x z = true.
Proof. by_keys. Qed.

Lemma ltb_leb (x y : float) : ltb x y = true -> leb x y = true.
Proof. by_keys. Qed.

Lemma ltb_false_leb (x y : float) :
  is_nan x = false -> is_nan y = false -> ltb x y = false -> leb y x = true.
Proof. by_keys. Qed.

Lemma leb_false_ltb (x y : float) :
  is_nan x = false -> is_nan y = false -> leb x y = false -> ltb y x = true.
Proof. by_keys. Qed.

Lemma leb_ltb_false (x y : float) : leb x y = true -> ltb y x = false.
Proof. by_keys. Qed.

Lemma leb_ltb_trans (x y z : float) :
  leb x y = true -> ltb y z = true -> ltb x z = true.
Proof. by_keys. Qed.

Lemma eqb_leb (x y : float) : eqb x y = true -> leb x y = true.
Proof. by_keys. Qed.

Lemma eqb_leb_sym (x y : float) : eqb x y = true -> leb y x = true.
Proof. by_keys. Qed.

(** Two floats equal to a third one are not strictly ordered. *)
Lemma eqb_eqb_ltb (x y k : float) :
  eqb x k = true -> eqb y k = true -> ltb x y = false.
Proof. by_keys. Qed.

(** *** Rounding never produces NaN from a non-negative mantissa *)

Lemma shr_1_nonneg (mrs : shr_record) : 0 <= shr_m mrs -> 0 <= shr_m (shr_1 mrs).
Proof.
  destruct mrs as [m r s]. cbn.
  destruct m as [|[p|p|]|p]; cbn; lia.
Qed.

Lemma iter_shr_1_nonneg (p : positive) (mrs : shr_record) :
  0 <= shr_m mrs -> 0 <= shr_m (SpecFloat.iter_pos shr_1 p mrs).
Proof.
  revert mrs. induction p as [p IH|p IH|]; intros mrs Hm; cbn.
  - apply IH, IH, shr_1_nonneg, Hm.
  - apply IH, IH, Hm.
  - apply shr_1_nonneg, Hm.
Qed.

Lemma shr_fexp_nonneg (m e : Z) (l : location) :
  0 <= m -> 0 <= shr_m (fst (shr_fexp prec emax m e l)).
Proof.
  intros Hm. unfold shr_fexp, shr.
  assert (Hrec : 0 <= shr_m (shr_record_of_loc m l)).
  { destruct l as [|[]]; cbn; exact Hm. }
  destruct (fexp prec emax (Zdigits2 m + e) - e) as [|p|p]; cbn; auto.
  apply iter_shr_1_nonneg, Hrec.
Qed.

Lemma round_nearest_even_nonneg (m : Z) (l : location) :
  0 <= m -> 0 <= round_nearest_even m l.
Proof.
  intros Hm. destruct l as [|[]]; cbn; try lia.
  destruct (Z.even m); lia.
Qed.

Lemma binary_round_aux_not_nan (sx : bool) (mx ex : Z) (lx : location) :
  0 <= mx -> is_nan (binary_round_aux prec emax sx mx ex lx) = false.
Proof.
  intros Hm. unfold binary_round_aux.
  pose proof (shr_fexp_nonneg mx ex lx Hm) as H1.
  destruct (shr_fexp prec emax mx ex lx) as [mrs' e']. cbn [fst] in H1.
  pose proof (shr_fexp_nonneg _ e' loc_Exact
                (round_nearest_even_nonneg _ (loc_of_shr_record mrs') H1)) as H2.
  destruct (shr_fexp prec emax _ e' loc_Exact) as [mrs'' e'']. cbn [fst] in H2.
  destruct (shr_m mrs'') as [|p|p]; [reflexivity| |lia].
  destruct (e'' <=? emax - prec); reflexivity.
Qed.

Lemma binary_normalize_not_nan (m e : Z) (szero : bool) :
  is_nan (binary_normalize prec emax m e szero) = false.
Proof.
  destruct m as [|p|p]; cbn [binary_normalize]; [reflexivity| |];
    unfold binary_round;
    destruct (shl_align _ _ _) as [mz ez];
    apply binary_round_aux_not_nan; lia.
Qed.

Lemma div_two_not_nan (d : float) : is_nan d = false -> is_nan (div d two) = false.
Proof.
  destruct d as [s|s| |s m e]; cbn; try reflexivity; try discriminate.
  intros _. unfold div, two, SFdiv.
  destruct (SFdiv_core_binary _ _ _ _ _ _) as [[mz ez] lz] eqn:E.
  apply binary_round_aux_not_nan.
  unfold SFdiv_core_binary in E.
  match type of E with
  | (let '(q, r) := Z.div_eucl ?a ?b in _) = _ =>
      pose proof (Z_div_mod a b eq_refl) as Hdiv;
      assert (Ha : 0 <= a); [|destruct (Z.div_eucl a b) as [q r]]
  end.
  - match goal with
    | |- 0 <= match ?s with _ => _ end => destruct s; try lia
    end.
    apply Z.shiftl_nonneg. lia.
  - injection E as <- _ _. nia.
Qed.

Lemma one_sub_not_nan (y : float) : is_nan y = false -> is_nan (sub one y) = false.
Proof.
  destruct y as [s|s| |s m e]; intros Hy;
    [reflexivity | reflexivity | discriminate | apply binary_normalize_not_nan].
Qed.

End PyFloatFacts.

(** ** The similarity score *)

Section Similarity.
Import PyFloat PyFloatFacts ChromaRepository.

Lemma similarity_range (d : float) :
  leb zero (similarity d) = true /\ leb (similarity d) one = true.
Proof.
  unfold similarity, PyFloat.max, PyFloat.min.
  set (x := sub one (div d two)).
  destruct (ltb x one) eqn:Hx1.
  - destruct (ltb zero x) eqn:H0x.
    + split; apply ltb_leb; assumption.
    + split; reflexivity.
  - replace (ltb zero one) with true by reflexivity. split; reflexivity.
Qed.

Lemma max_min_is_clamp (x : float) :
  is_nan x = false ->
  PyFloat.max zero (PyFloat.min one x) = Spec.clamp x zero one.
Proof.
  intros Hx. unfold PyFloat.max, PyFloat.min, Spec.clamp.
  destruct (ltb x one) eqn:A, (leb x zero) eqn:C, (leb one x) eqn:D.
  - apply leb_ltb_false in D. congruence.
  - rewrite (leb_ltb_false _ _ C). reflexivity.
  - apply leb_ltb_false in D. congruence.
  - rewrite (leb_false_ltb x zero Hx eq_refl C). reflexivity.
  - rewrite (leb_ltb_trans x zero one C eq_refl) in A. discriminate.
  - rewrite (leb_ltb_trans x zero one C eq_refl) in A. discriminate.
  - reflexivity.
  - rewrite (leb_false_ltb one x eq_refl Hx D) in A. discriminate.
Qed.

Lemma similarity_clamp (d : float) :
  similarity d =
    if is_nan d then one
    else Spec.clamp (sub one (div d two)) zero one.
Proof.
  destruct (is_nan d) eqn:Hd.
  - destruct d; try discriminate. reflexivity.
  - apply max_min_is_clamp, one_sub_not_nan, div_two_not_nan, Hd.
Qed.

End Similarity.

(** ** The selection loop *)

Section SelectionLoop.
Import RAGService.

Lemma len_nonneg (s : string) : 0 <= PyStr.len s.
Proof. unfold PyStr.len. lia. Qed.

Lemma total_text_len_cons (c : InternalChunk.t) (l : list InternalChunk.t) :
  total_text_len (c :: l) = PyStr.len (InternalChunk.text c) + total_text_len l.
Proof. reflexivity. Qed.

Lemma total_text_len_nonneg (l : list InternalChunk.t) : 0 <= total_text_len l.
Proof.
  induction l as [|c l IH]; [cbn; lia|]. rewrite total_text_len_cons.
  pose proof (len_nonneg (InternalChunk.text c)). lia.
Qed.

Lemma total_text_len_elem (l : list InternalChunk.t) (c : InternalChunk.t) :
  c ∈ l -> PyStr.len (InternalChunk.text c) <= total_text_len l.
Proof.
  induction 1 as [c l|c d l _ IH]; rewrite total_text_len_cons.
  - pose proof (total_text_len_nonneg l). lia.
  - pose proof (len_nonneg (InternalChunk.text d)). lia.
Qed.

(** Once the count has reached the cap, nothing more is accepted: leaving
    the loop and scanning on are the same. *)
Lemma greedy_full (ms mc : Z) (l : list InternalChunk.t) (n t : Z) :
  ms <= n -> Spec.greedy ms mc l n t = [].
Proof.
  intros Hn. induction l as [|c l IH]; cbn; [reflexivity|].
  replace (n <? ms) with false by lia. exact IH.
Qed.

Lemma select_loop_greedy (ms mc : Z) (todo sel : list InternalChunk.t) (t : Z) :
  select_loop ms mc todo sel t =
    (sel ++ Spec.greedy ms mc todo (Z.of_nat (length sel)) t,
     t + total_text_len (Spec.greedy ms mc todo (Z.of_nat (length sel)) t)).
Proof.
  revert sel t. induction todo as [|c todo IH]; intros sel t; cbn.
  - rewrite app_nil_r. f_equal. lia.
  - destruct (Z.of_nat (length sel) >=? ms) eqn:Hfull.
    + replace (Z.of_nat (length sel) <? ms) with false by lia. cbn.
      rewrite greedy_full by lia. cbn. rewrite app_nil_r. f_equal. lia.
    + replace (Z.of_nat (length sel) <? ms) with true by lia. cbn.
      destruct (t + PyStr.len (InternalChunk.text c) >? mc) eqn:Hbig.
      * replace (t + PyStr.len (InternalChunk.text c) <=? mc) with false by lia.
        apply IH.
      * replace (t + PyStr.len (InternalChunk.text c) <=? mc) with true by lia.
        rewrite IH, length_app. cbn [length].
        replace (Z.of_nat (length sel + 1)) with (Z.of_nat (length sel) + 1) by lia.
        rewrite <- app_assoc, total_text_len_cons. cbn [app]. f_equal. lia.
Qed.

Lemma greedy_sublist (ms mc : Z) (l : list InternalChunk.t) (n t : Z) :
  Spec.greedy ms mc l n t `sublist_of` l.
Proof.
  revert n t. induction l as [|c l IH]; intros n t; cbn; [constructor|].
  destruct (_ && _); [apply sublist_skip | apply sublist_cons]; apply IH.
Qed.

Lemma greedy_count (ms mc : Z) (l : list InternalChunk.t) (n t : Z) :
  n <= ms -> n + Z.of_nat (length (Spec.greedy ms mc l n t)) <= ms.
Proof.
  revert n t. induction l as [|c l IH]; intros n t Hn; cbn; [lia|].
  destruct (n <? ms) eqn:Hlt; cbn.
  - destruct (_ <=? _); cbn [length].
    + specialize (IH (n + 1) (t + PyStr.len (InternalChunk.text c))). lia.
    + apply IH, Hn.
  - apply IH, Hn.
Qed.

Lemma greedy_budget (ms mc : Z) (l : list InternalChunk.t) (n t : Z) :
  t <= mc -> t + total_text_len (Spec.greedy ms mc l n t) <= mc.
Proof.
  revert n t. induction l as [|c l IH]; intros n t Ht; cbn; [lia|].
  destruct (n <? ms); cbn.
  - destruct (_ <=? _) eqn:Hfit.
    + rewrite total_text_len_cons.
      specialize (IH (n + 1) (t + PyStr.len (InternalChunk.text c))). lia.
    + apply IH, Ht.
  - apply IH, Ht.
Qed.

End SelectionLoop.

(** ** The filter and the sort *)

Section FilterAndSort.
Import RAGService PyFloatFacts.

Lemma elem_of_bool_filter {A} (f : A -> bool) (l : list A) (x : A) :
  x ∈ List.filter f l <-> x ∈ l /\ f x = true.
Proof. rewrite !list_elem_of_In. apply filter_In. Qed.

Lemma bool_filter_sublist {A} (f : A -> bool) (l : list A) :
  List.filter f l `sublist_of` l.
Proof.
  induction l as [|x l IH]; cbn; [constructor|].
  destruct (f x); [apply sublist_skip | apply sublist_cons]; exact IH.
Qed.

Lemma bool_filter_sublist_mono {A} (f : A -> bool) (l1 l2 : list A) :
  l1 `sublist_of` l2 -> List.filter f l1 `sublist_of` List.filter f l2.
Proof.
  induction 1 as [|x l1 l2 _ IH|x l1 l2 _ IH]; cbn.
  - constructor.
  - destruct (f x); [apply sublist_skip|]; exact IH.
  - destruct (f x); [apply sublist_cons|]; exact IH.
Qed.

Lemma StronglySorted_sublist {A} (R : relation A) (l1 l2 : list A) :
  l1 `sublist_of` l2 -> StronglySorted R l2 -> StronglySorted R l1.
Proof.
  induction 1 as [|x l1 l2 Hsub IH|x l1 l2 Hsub IH]; intros Hs.
  - constructor.
  - apply StronglySorted_inv in Hs as [Hs Hall]. constructor; [auto|].
    rewrite Forall_forall in Hall |- *. intros y Hy.
    apply Hall. eapply elem_of_sublist; eassumption.
  - apply StronglySorted_inv in Hs as [Hs _]. auto.
Qed.

Lemma insert_desc_elem (c d : InternalChunk.t) (l : list InternalChunk.t) :
  d ∈ insert_desc c l <-> d = c \/ d ∈ l.
Proof.
  induction l as [|e l IH]; cbn.
  - rewrite list_elem_of_singleton, elem_of_nil. tauto.
  - destruct (PyFloat.ltb _ _); rewrite !elem_of_cons; [rewrite IH|]; tauto.
Qed.

Lemma sort_elem (d : InternalChunk.t) (l : list InternalChunk.t) :
  d ∈ sort_by_score_desc l <-> d ∈ l.
Proof.
  induction l as [|c l IH]; cbn; [reflexivity|].
  rewrite insert_desc_elem, elem_of_cons, IH. reflexivity.
Qed.

Lemma insert_desc_sorted (c : InternalChunk.t) (l : list InternalChunk.t) :
  PyFloat.is_nan (InternalChunk.score c) = false ->
  Forall (fun d => PyFloat.is_nan (InternalChunk.score d) = false) l ->
  StronglySorted descending l ->
  StronglySorted descending (insert_desc c l).
Proof.
  intros Hc. induction l as [|d l IH]; intros Hnan Hs; cbn.
  - repeat constructor.
  - apply Forall_cons in Hnan as [Hd Hnan].
    apply StronglySorted_inv in Hs as [Hs Hall].
    destruct (PyFloat.ltb _ _) eqn:Hlt.
    + constructor; [auto|].
      rewrite Forall_forall in Hall |- *. intros e He.
      apply insert_desc_elem in He as [->|He]; [|auto].
      apply ltb_leb, Hlt.
    + assert (Hdc : descending c d) by (apply ltb_false_leb; assumption).
      constructor; [constructor; assumption|].
      constructor; [exact Hdc|].
      rewrite Forall_forall in Hall |- *. intros e He.
      unfold descending in *. eapply leb_trans; [apply Hall, He | exact Hdc].
Qed.

Lemma sort_sorted (l : list InternalChunk.t) :
  Forall (fun d => PyFloat.is_nan (InternalChunk.score d) = false) l ->
  StronglySorted descending (sort_by_score_desc l).
Proof.
  induction 1 as [|c l Hc Hl IH]; cbn; [constructor|].
  apply insert_desc_sorted; [exact Hc| |exact IH].
  rewrite Forall_forall in Hl |- *. intros d Hd. apply Hl, sort_elem, Hd.
Qed.

(** Inserting a chunk never carries it past a chunk of equal score. *)
Lemma with_score_insert (k : float) (c : InternalChunk.t) (l : list InternalChunk.t) :
  with_score k (insert_desc c l) = with_score k (c :: l).
Proof.
  induction l as [|d l IH]; [reflexivity|]. cbn [insert_desc].
  destruct (PyFloat.ltb _ _) eqn:Hlt; [|reflexivity].
  unfold with_score in *. cbn [List.filter] in *.
  destruct (PyFloat.eqb (InternalChunk.score d) k) eqn:Hd;
    destruct (PyFloat.eqb (InternalChunk.score c) k) eqn:Hc;
    rewrite IH; try reflexivity.
  rewrite (eqb_eqb_ltb _ _ _ Hc Hd) in Hlt. discriminate.
Qed.

Lemma with_score_sort (k : float) (l : list InternalChunk.t) :
  with_score k (sort_by_score_desc l) = with_score k l.
Proof.
  induction l as [|c l IH]; [reflexivity|]. cbn [sort_by_score_desc foldr].
  rewrite with_score_insert. unfold with_score in *. cbn [List.filter].
  fold (sort_by_score_desc l). rewrite IH. reflexivity.
Qed.

Context `{Settings}.

Lemma filtered_elem (chunks : list InternalChunk.t) (c : InternalChunk.t) :
  c ∈ filtered chunks <-> c ∈ chunks /\ score_ok retrieval_min_score c = true.
Proof. unfold filtered. rewrite sort_elem. apply elem_of_bool_filter. Qed.

Lemma filtered_sorted (chunks : list InternalChunk.t) :
  StronglySorted descending (filtered chunks).
Proof.
  apply sort_sorted, Forall_forall. intros c Hc.
  apply elem_of_bool_filter in Hc as [_ Hok].
  apply leb_not_nan in Hok. tauto.
Qed.

Lemma filtered_stable (k : float) (chunks : list InternalChunk.t) :
  with_score k (filtered chunks) `sublist_of` with_score k chunks.
Proof.
  unfold filtered. rewrite with_score_sort.
  apply bool_filter_sublist_mono, bool_filter_sublist.
Qed.

Lemma select_chunks_greedy (chunks : list InternalChunk.t) (max_sources : Z) :
  _select_chunks chunks max_sources =
    Spec.greedy max_sources max_context_characters (filtered chunks) 0 0.
Proof. unfold _select_chunks. rewrite select_loop_greedy. reflexivity. Qed.

Lemma select_chunks_sublist (chunks : list InternalChunk.t) (max_sources : Z) :
  _select_chunks chunks max_sources `sublist_of` filtered chunks.
Proof. rewrite select_chunks_greedy. apply greedy_sublist. Qed.

Lemma select_chunks_elem (chunks : list InternalChunk.t) (max_sources : Z)
    (c : InternalChunk.t) :
  c ∈ _select_chunks chunks max_sources ->
  c ∈ chunks /\ score_ok retrieval_min_score c = true.
Proof.
  intros Hc. apply filtered_elem.
  eapply elem_of_sublist; [exact Hc | apply select_chunks_sublist].
Qed.

End FilterAndSort.

(** ** Citation numbering *)

Section Citations.
Import RAGService.
Context `{PyLib}.

Local Open Scope string_scope.

Lemma string_app_cons (x : ascii) (a b : string) :
  String x a ++ b = String x (a ++ b).
Proof. reflexivity. Qed.


Lemma string_app_assoc (a b c : string) : (a ++ b) ++ c = a ++ (b ++ c).
Proof.
  induction a as [|x a IH]; [reflexivity|].
  rewrite !string_app_cons, IH. reflexivity.
Qed.



(** Reading back a printed integer. *)
Lemma int_of_str_of_int (z : Z) :
  Z.of_int <$> NilZero.int_of_string (PyStr.str_of_int z) = Some z.
Proof.
  unfold PyStr.str_of_int. rewrite NilZero.isi.
  - cbn. f_equal. apply DecimalZ.of_to.
  - destruct z; cbn; try discriminate.
    intros [= E]. exact (DecimalPos.Unsigned.to_uint_nonnil _ E).
  - destruct z; cbn; try discriminate.
    intros [= E]. exact (DecimalPos.Unsigned.to_uint_nonnil _ E).
Qed.





(** The answer is the preamble followed by the source lines. *)
Lemma generate_answer_shape (question : string) (chunks : list InternalChunk.t) :
  _generate_answer question chunks
  = answer_preamble question ++ PyStr.nl
      ++ PyStr.join PyStr.nl (summary_lines chunks).
Proof.
  unfold _generate_answer, answer_preamble, PyStr.join.
  cbn [String.concat]. rewrite !string_app_assoc. reflexivity.
Qed.

Lemma make_ok (id : string) (cid : Z) (score : float) (src : option scalar)
    (rank : Z) (text : string) (md : Metadata) :
  PyFloat.leb PyFloat.zero score && PyFloat.leb score PyFloat.one = true ->
  1 <= rank ->
  SourceChunk.make id cid score src rank text md
  = Returned {| SourceChunk.id := id; SourceChunk.citation_id := cid;
                SourceChunk.score := score; SourceChunk.source := py_str <$> src;
                SourceChunk.rank := rank; SourceChunk.text := text;
                SourceChunk.metadata := md |}.
Proof.
  intros Hscore Hrank. unfold SourceChunk.make. rewrite Hscore. cbn [negb].
  replace (1 <=? rank)%Z with true by lia. reflexivity.
Qed.

Lemma format_loop_ok (idx : Z) (chunks : list InternalChunk.t)
    (acc : list SourceChunk.t) :
  1 <= idx ->
  Forall (fun c => score_in_range c = true) chunks ->
  exists out,
    format_loop idx chunks acc = Returned (acc ++ out)%list
    /\ SourceChunk.citation_id <$> out = seqZ idx (Z.of_nat (length chunks))
    /\ SourceChunk.rank <$> out = seqZ idx (Z.of_nat (length chunks))
    /\ Forall2 describes out chunks.
Proof.
  intros Hidx Hall. revert idx acc Hidx.
  induction Hall as [|c chunks Hc _ IH]; intros idx acc Hidx.
  - exists []. cbn. rewrite app_nil_r. repeat split; constructor.
  - cbn [format_loop]. rewrite make_ok by assumption.
    cbn [mbind outcome_bind].
    destruct (IH (idx + 1)%Z (acc ++ [ {|
        SourceChunk.id := InternalChunk.id c; SourceChunk.citation_id := idx;
        SourceChunk.score := InternalChunk.score c;
        SourceChunk.source := py_str <$> source_name_of c;
        SourceChunk.rank := idx; SourceChunk.text := InternalChunk.text c;
        SourceChunk.metadata := InternalChunk.metadata c |} ])%list)
      as (out & Hrun & Hids & Hranks & Hdesc); [lia|].
    eexists (_ :: out). rewrite Hrun, <- app_assoc. cbn [app length].
    rewrite (seqZ_cons idx) by lia.
    replace (Z.pred (Z.of_nat (S (length chunks))))
      with (Z.of_nat (length chunks)) by lia.
    repeat split.
    + cbn. rewrite Hids. reflexivity.
    + cbn. rewrite Hranks. reflexivity.
    + constructor; [|exact Hdesc]. repeat split.
Qed.

End Citations.

(** ** The repository and the orchestrator *)

Section Orchestrator.
Import RAGService ChromaRepository.

Lemma chunks_of_raw_lookup (raw : QueryResult.t) (idx : nat) :
  chunks_of_raw raw !! idx
  = chunk_at (default [] (QueryResult.metadatas raw))
             (default [] (QueryResult.distances raw))
             (match QueryResult.ids raw with
              | Some l => l
              | None => (fun i => PyStr.str_of_int (Z.of_nat i))
                          <$> seq 0 (length (default [] (QueryResult.documents raw)))
              end) idx
    <$> default [] (QueryResult.documents raw) !! idx.
Proof.
  unfold chunks_of_raw.
  destruct (default [] (QueryResult.documents raw)) as [|doc docs] eqn:Hdocs.
  - reflexivity.
  - apply list_lookup_imap.
Qed.

(** Every chunk that leaves the repository has a score in [[0, 1]]. *)
Lemma chunks_of_raw_in_range (raw : QueryResult.t) :
  Forall (fun c => score_in_range c = true) (chunks_of_raw raw).
Proof.
  apply Forall_lookup. intros idx c Hc.
  rewrite chunks_of_raw_lookup in Hc.
  destruct (_ !! idx) as [doc|]; [|discriminate].
  injection Hc as <-. unfold score_in_range, chunk_at. cbn [InternalChunk.score].
  destruct (similarity_range (default PyFloat.zero
              (default [] (QueryResult.distances raw) !! idx))) as [-> ->].
  reflexivity.
Qed.

Context `{Settings} `{PyLib} `{ChromaCollection}.

(** What the repository sends to the collection when asked for [n]. *)
Lemma similarity_search_run (q : string) (n : Z) (log : list event) :
  similarity_search q n log =
    let n' := Z.max 1 (Z.min n retrieval_max_k) in
    let log' := log ++ [SimilaritySearchCall q n; CollectionQueryCall q n'] in
    match query q n' with
    | Returned raw => (Returned (chunks_of_raw raw), log')
    | Raised _ => (Raised (ChromaUnavailableError "ChromaDB query failed"), log')
    end.
Proof.
  unfold similarity_search, guarded_query, emit.
  unfold mbind, Run_bind, mret, Run_ret. rewrite <- app_assoc. cbn [app].
  destruct (query q _); reflexivity.
Qed.

(** The selection keeps scores in range, so building the sources cannot
    fail. *)
Lemma format_selected (chunks : list InternalChunk.t) (max_sources : Z) :
  Forall (fun c => score_in_range c = true) chunks ->
  exists sources,
    _format_sources (_select_chunks chunks max_sources) = Returned sources
    /\ SourceChunk.citation_id <$> sources
       = seqZ 1 (Z.of_nat (length (_select_chunks chunks max_sources)))
    /\ SourceChunk.rank <$> sources
       = seqZ 1 (Z.of_nat (length (_select_chunks chunks max_sources)))
    /\ Forall2 describes sources (_select_chunks chunks max_sources).
Proof.
  intros Hall.
  destruct (format_loop_ok 1 (_select_chunks chunks max_sources) [])
    as (out & Hrun & Hrest); [lia| |].
  - rewrite Forall_forall in Hall |- *. intros c Hc.
    apply Hall. apply select_chunks_elem in Hc. tauto.
  - exists out. split; [exact Hrun | exact Hrest].
Qed.

Lemma answer_question_run (payload : QueryRequest.t) (log : list event) :
  answer_question payload log =
    let q := PyStr.strip (QueryRequest.question payload) in
    let ms := resolve_max_sources payload in
    let n := Z.max ms retrieval_default_top_k in
    let n' := Z.max 1 (Z.min n retrieval_max_k) in
    let log' := log ++ [SimilaritySearchCall q n; CollectionQueryCall q n'] in
    match query q n' with
    | Raised _ => (Raised (ChromaUnavailableError "ChromaDB query failed"), log')
    | Returned raw =>
        match chunks_of_raw raw with
        | [] => (Returned {| QueryResponse.answer := no_content_answer;
                             QueryResponse.sources := [] |}, log')
        | candidates =>
            let selected := _select_chunks candidates ms in
            match _format_sources selected with
            | Returned sources =>
                (Returned {| QueryResponse.answer := _generate_answer q selected;
                             QueryResponse.sources := sources |}, log')
            | Raised e => (Raised e, log')
            end
        end
    end.
Proof.
  unfold answer_question, mbind, Run_bind.
  rewrite similarity_search_run. cbv zeta.
  destruct (query _ _) as [raw|e]; [|reflexivity].
  destruct (chunks_of_raw raw) as [|c cs]; [reflexivity|].
  unfold lift. destruct (_format_sources _); reflexivity.
Qed.

End Orchestrator.

(** ** The Sources section of the composed answer *)

Section ComposedAnswer.
Import RAGService.

Local Open Scope string_scope.
















Context `{PyLib}.





End ComposedAnswer.

(* ===================================================================== *)
(** * Part III. The claims                                                *)
(* ===================================================================== *)

Section Claims.
Import RAGService ChromaRepository PyFloatFacts.

(** C1. For every chunk list, every positive [max_sources] and every
    non-negative character budget, the selection is the greedy walk of the
    specification over the filtered, sorted list: a chunk is accepted
    exactly when the count is below the cap and the running total plus its
    length stays within the budget. A chunk over the budget is skipped and
    the walk goes on, so a later chunk that fits is still accepted. The
    texts of the output sum to at most the budget and the output has at
    most [max_sources] chunks. *)
Theorem select_chunks_greedy_budget_count `{Settings}
    (chunks : list InternalChunk.t) (max_sources : Z) :
  0 < max_sources ->
  0 <= max_context_characters ->
  _select_chunks chunks max_sources
    = Spec.greedy max_sources max_context_characters (filtered chunks) 0 0
  /\ (forall c rest sel t,
        Z.of_nat (length sel) < max_sources ->
        max_context_characters < t + PyStr.len (InternalChunk.text c) ->
        select_loop max_sources max_context_characters (c :: rest) sel t
        = select_loop max_sources max_context_characters rest sel t)
  /\ (forall c c' rest sel t,
        Z.of_nat (length sel) < max_sources ->
        max_context_characters < t + PyStr.len (InternalChunk.text c) ->
        t + PyStr.len (InternalChunk.text c') <= max_context_characters ->
        c' ∈ fst (select_loop max_sources max_context_characters
                    (c :: c' :: rest) sel t))
  /\ total_text_len (_select_chunks chunks max_sources) <= max_context_characters
  /\ Z.of_nat (length (_select_chunks chunks max_sources)) <= max_sources.
Proof.
  intros Hms Hmc.
  assert (Hskip : forall c rest sel t,
             Z.of_nat (length sel) < max_sources ->
             max_context_characters < t + PyStr.len (InternalChunk.text c) ->
             select_loop max_sources max_context_characters (c :: rest) sel t
             = select_loop max_sources max_context_characters rest sel t).
  { intros c rest sel t Hcount Hbig. cbn [select_loop].
    replace (Z.of_nat (length sel) >=? max_sources) with false by lia.
    replace (t + PyStr.len (InternalChunk.text c) >? max_context_characters)
      with true by lia.
    reflexivity. }
  split; [apply select_chunks_greedy|].
  split; [exact Hskip|].
  split.
  - intros c c' rest sel t Hcount Hbig Hfit.
    rewrite Hskip by assumption. cbn [select_loop].
    replace (Z.of_nat (length sel) >=? max_sources) with false by lia.
    replace (t + PyStr.len (InternalChunk.text c') >? max_context_characters)
      with false by lia.
    rewrite select_loop_greedy. cbn [fst].
    rewrite <- app_assoc. apply elem_of_app. right. apply elem_of_cons. left.
    reflexivity.
  - rewrite select_chunks_greedy. split.
    + pose proof (greedy_budget max_sources max_context_characters
                    (filtered chunks) 0 0 Hmc). lia.
    + pose proof (greedy_count max_sources max_context_characters
                    (filtered chunks) 0 0). lia.
Qed.

(** C3. For every raw distance [d], negative, above 2 or infinite, the
    score is [clamp(1 - d/2, 0, 1)] (and 1.0 when [d] is NaN); it lies in
    [[0, 1]]; the score of 0 is 1 and the score of 2 is 0. The computation
    is a total function of [d]. *)
Theorem similarity_is_clamped (d : float) :
  similarity d
    = (if PyFloat.is_nan d then PyFloat.one
       else Spec.clamp (PyFloat.sub PyFloat.one (PyFloat.div d PyFloat.two))
                       PyFloat.zero PyFloat.one)
  /\ PyFloat.leb PyFloat.zero (similarity d) = true
  /\ PyFloat.leb (similarity d) PyFloat.one = true
  /\ similarity PyFloat.zero = PyFloat.one
  /\ similarity PyFloat.two = PyFloat.zero.
Proof.
  split; [apply similarity_clamp|].
  destruct (similarity_range d) as [Hlo Hhi].
  repeat split; [exact Hlo | exact Hhi].
Qed.

(** C7. No chunk of the selection scores below the threshold, and each one
    is a chunk of the input; a chunk whose score equals the threshold
    passes the filter. *)
Theorem select_chunks_respects_threshold `{Settings}
    (chunks : list InternalChunk.t) (max_sources : Z) :
  Forall (fun c =>
            c ∈ chunks
            /\ PyFloat.leb retrieval_min_score (InternalChunk.score c) = true
            /\ PyFloat.ltb (InternalChunk.score c) retrieval_min_score = false)
         (_select_chunks chunks max_sources)
  /\ Forall (fun c => c ∈ filtered chunks) (with_score retrieval_min_score chunks).
Proof.
  split; apply Forall_forall; intros c Hc.
  - apply select_chunks_elem in Hc as [Hin Hok]. unfold score_ok in Hok.
    repeat split; [exact Hin | exact Hok | apply leb_ltb_false, Hok].
  - apply elem_of_bool_filter in Hc as [Hin Heq].
    apply filtered_elem. split; [exact Hin|].
    apply eqb_leb_sym, Heq.
Qed.

(** C8. The selection is sorted by decreasing similarity, and the chunks
    of any given similarity appear in it in the order they have in the
    input. *)
Theorem select_chunks_sorted_stable `{Settings}
    (chunks : list InternalChunk.t) (max_sources : Z) :
  StronglySorted descending (_select_chunks chunks max_sources)
  /\ forall k : float,
       with_score k (_select_chunks chunks max_sources)
         `sublist_of` with_score k chunks.
Proof.
  split.
  - eapply StronglySorted_sublist;
      [apply select_chunks_sublist | apply filtered_sorted].
  - intros k. transitivity (with_score k (filtered chunks)).
    + apply bool_filter_sublist_mono, select_chunks_sublist.
    + apply filtered_stable.
Qed.


(** C5, amended. When the character budget is 0, every selected chunk has
    an empty text; so the selection is empty as soon as no chunk of the
    input has an empty text. *)
Theorem zero_budget_selects_only_empty_texts `{Settings}
    (chunks : list InternalChunk.t) (max_sources : Z) :
  max_context_characters = 0 ->
  Forall (fun c => InternalChunk.text c = ""%string)
         (_select_chunks chunks max_sources)
  /\ (Forall (fun c => InternalChunk.text c <> ""%string) chunks ->
      _select_chunks chunks max_sources = []).
Proof.
  intros Hzero.
  assert (Hempty : Forall (fun c => InternalChunk.text c = ""%string)
                          (_select_chunks chunks max_sources)).
  { apply Forall_forall. intros c Hc.
    pose proof (total_text_len_elem _ _ Hc) as Hle.
    rewrite select_chunks_greedy in Hle.
    pose proof (greedy_budget max_sources max_context_characters
                  (filtered chunks) 0 0) as Hbudget.
    unfold PyStr.len in Hle.
    destruct (InternalChunk.text c); [reflexivity|]. cbn [String.length] in Hle.
    lia. }
  split; [exact Hempty|].
  intros Hnonempty.
  destruct (_select_chunks chunks max_sources) as [|c out] eqn:Hout;
    [reflexivity|].
  apply Forall_cons in Hempty as [Hc _].
  assert (Hin : c ∈ chunks).
  { eapply select_chunks_elem. rewrite Hout. apply elem_of_cons. left.
    reflexivity. }
  rewrite Forall_forall in Hnonempty. destruct (Hnonempty c Hin Hc).
Qed.

(** C6. The orchestrator asks the repository's [similarity_search] for
    exactly [max(max_sources, retrieval_default_top_k)] candidates, once,
    which is never less than the configured default; the repository then
    forwards that number to the collection, kept between 1 and
    [retrieval_max_k]. *)
Theorem requests_max_of_sources_and_default
    `{Settings} `{PyLib} `{ChromaCollection}
    (payload : QueryRequest.t) (log : list event) :
  let q := PyStr.strip (QueryRequest.question payload) in
  let n := Z.max (resolve_max_sources payload) retrieval_default_top_k in
  snd (answer_question payload log)
    = log ++ [SimilaritySearchCall q n;
              CollectionQueryCall q (Z.max 1 (Z.min n retrieval_max_k))]
  /\ retrieval_default_top_k <= n.
Proof.
  cbv zeta. split; [|lia].
  rewrite answer_question_run. cbv zeta.
  destruct (query _ _) as [raw|e]; [|reflexivity].
  destruct (chunks_of_raw raw); [reflexivity|].
  destruct (_format_sources _); reflexivity.
Qed.

(** C9. When the query to the collection raises, the orchestrator returns
    [ChromaUnavailableError] and no response, after a single query; when
    the query returns, whatever it returns, the orchestrator returns a
    response: no other failure leaves the pipeline. *)
Theorem only_unavailability_escapes
    `{Settings} `{PyLib} `{ChromaCollection}
    (payload : QueryRequest.t) (log : list event) :
  let q := PyStr.strip (QueryRequest.question payload) in
  let n := Z.max (resolve_max_sources payload) retrieval_default_top_k in
  let n' := Z.max 1 (Z.min n retrieval_max_k) in
  collection_queries (snd (answer_question payload log))
    = S (collection_queries log)
  /\ match query q n' with
     | Raised _ =>
         fst (answer_question payload log)
         = Raised (ChromaUnavailableError "ChromaDB query failed")
     | Returned _ =>
         exists response, fst (answer_question payload log) = Returned response
     end.
Proof.
  cbv zeta. rewrite answer_question_run. cbv zeta.
  assert (Hcount : forall a b,
    collection_queries (log ++ [SimilaritySearchCall a b;
                                CollectionQueryCall a
                                  (Z.max 1 (Z.min b retrieval_max_k))])
    = S (collection_queries log)).
  { intros a b. unfold collection_queries.
    rewrite List.filter_app, length_app. cbn. lia. }
  destruct (query _ _) as [raw|e].
  - destruct (chunks_of_raw raw) as [|c cs] eqn:Hraw.
    + split; [apply Hcount | eexists; reflexivity].
    + destruct (format_selected (c :: cs) (resolve_max_sources payload))
        as (sources & -> & _).
      { rewrite <- Hraw. apply chunks_of_raw_in_range. }
      split; [apply Hcount | eexists; reflexivity].
  - split; [apply Hcount | reflexivity].
Qed.

(** C10. A document at a position for which the response has no distance
    becomes a chunk whose raw distance is taken to be 0.0 and whose score
    is therefore 1.0, the largest score there is. *)
Theorem missing_distance_scores_one
    (raw : QueryResult.t) (idx : nat) (doc : option string) :
  default [] (QueryResult.documents raw) !! idx = Some doc ->
  default [] (QueryResult.distances raw) !! idx = None ->
  exists chunk,
    chunks_of_raw raw !! idx = Some chunk
    /\ InternalChunk.score chunk = similarity PyFloat.zero
    /\ InternalChunk.score chunk = PyFloat.one
    /\ forall d : float, PyFloat.leb (similarity d) (InternalChunk.score chunk) = true.
Proof.
  intros Hdoc Hdist. rewrite chunks_of_raw_lookup, Hdoc. cbn [fmap option_fmap option_map].
  eexists. split; [reflexivity|].
  unfold chunk_at. cbn [InternalChunk.score]. rewrite Hdist. cbn [default].
  repeat split. intros d. apply similarity_range.
Qed.

(** C4. With no chunk selected the composed answer is not the fixed
    no-content message: it is the usual preamble, closed by an empty
    Sources section. This is what a request receives when the only
    candidate scores below the threshold. *)
Theorem empty_selection_keeps_sources_section `{PyLib} (question : string) :
  _generate_answer question []
    = (answer_preamble question ++ PyStr.nl)%string
  /\ _generate_answer question [] <> no_content_answer
  /\ answer_question (H := default_settings)
       (H1 := Samples.store Samples.far_candidate)
       (Samples.ask "what?" None) []
     = (Returned {| QueryResponse.answer :=
                      (answer_preamble "what?" ++ PyStr.nl)%string;
                    QueryResponse.sources := [] |},
        [SimilaritySearchCall "what?" 8; CollectionQueryCall "what?" 8]).
Proof.
  assert (Hshape : _generate_answer question []
                   = (answer_preamble question ++ PyStr.nl)%string).
  { rewrite generate_answer_shape. reflexivity. }
  split; [exact Hshape|]. split.
  - intros E.
    apply (f_equal (fun s => match s with
                             | String c _ => c
                             | EmptyString => "000"%char
                             end)) in E.
    vm_compute in E. discriminate.
  - rewrite answer_question_run. reflexivity.
Qed.

End Claims.

(** ** The scenarios of the specification, evaluated *)

Section Scenarios.
Import RAGService ChromaRepository Samples.

Local Existing Instance lib.

(** Scenario A: of the distances 0.1, 0.5 and 1.9 the third scores 0.05 and
    is dropped; the other two are cited as 1 and 2. *)
Example scenario_a_two_sources :
  exists answer s1 s2,
    answer_question (H := default_settings) (H1 := store scenario_a)
      (ask "what is alpha?" None) []
    = (Returned {| QueryResponse.answer := answer;
                   QueryResponse.sources := [s1; s2] |},
       [SimilaritySearchCall "what is alpha?" 8;
        CollectionQueryCall "what is alpha?" 8])
    /\ (SourceChunk.id s1, SourceChunk.citation_id s1) = ("a"%string, 1)
    /\ (SourceChunk.id s2, SourceChunk.citation_id s2) = ("b"%string, 2)
    /\ printed_citation_id <$> summary_lines
         (_select_chunks (H := default_settings) (chunks_of_raw scenario_a) 8)
       = [Some 1; Some 2].
Proof. do 3 eexists. vm_compute. repeat split. Qed.

(** Scenario B: with a budget of 10 the text of length 50 is skipped and
    the text of length 5 that follows it is accepted. *)
Example scenario_b_skips_and_continues :
  _select_chunks (H := tight_settings) [long_chunk; short_chunk] 5
  = [short_chunk].
Proof. reflexivity. Qed.

(** Scenario C: no candidate at all. *)
Example scenario_c_no_candidates :
  answer_question (H := default_settings)
    (H1 := store {| QueryResult.documents := Some [];
                    QueryResult.metadatas := Some [];
                    QueryResult.distances := Some [];
                    QueryResult.ids := Some [] |})
    (ask "anything?" None) []
  = (Returned {| QueryResponse.answer := no_content_answer;
                 QueryResponse.sources := [] |},
     [SimilaritySearchCall "anything?" 8; CollectionQueryCall "anything?" 8]).
Proof. reflexivity. Qed.

(** Scenario D: the store is down. *)
Example scenario_d_store_down :
  answer_question (H := default_settings) (H1 := store_down)
    (ask "anything?" None) []
  = (Raised (ChromaUnavailableError "ChromaDB query failed"),
     [SimilaritySearchCall "anything?" 8; CollectionQueryCall "anything?" 8]).
Proof. reflexivity. Qed.

(** Scenario E: one source wanted, eight candidates requested, one source
    returned. *)
Example scenario_e_one_source :
  exists answer s1,
    answer_question (H := default_settings) (H1 := store scenario_a)
      (ask "what is alpha?" (Some 1)) []
    = (Returned {| QueryResponse.answer := answer;
                   QueryResponse.sources := [s1] |},
       [SimilaritySearchCall "what is alpha?" 8;
        CollectionQueryCall "what is alpha?" 8]).
Proof. do 2 eexists. vm_compute. reflexivity. Qed.

(** Twenty sources wanted: the repository is asked for twenty and asks the
    collection for [retrieval_max_k], twelve. *)
Example twenty_requested_twelve_forwarded :
  snd (answer_question (H := default_settings) (H1 := store scenario_a)
         (ask "what is alpha?" (Some 20)) [])
  = [SimilaritySearchCall "what is alpha?" 20;
     CollectionQueryCall "what is alpha?" 12].
Proof. reflexivity. Qed.

(** A chunk scoring exactly the threshold is selected. *)
Example threshold_chunk_selected :
  _select_chunks (H := default_settings) [threshold_chunk] 3 = [threshold_chunk].
Proof. reflexivity. Qed.

End Scenarios.

(** ** Instances of the theorems above *)

Lemma select_chunks_scenario_b :
  0 < 5
  /\ 0 <= max_context_characters (Settings := Samples.tight_settings)
  /\ RAGService._select_chunks (H := Samples.tight_settings)
       [Samples.long_chunk; Samples.short_chunk] 5
     = Spec.greedy 5 (max_context_characters (Settings := Samples.tight_settings))
         (RAGService.filtered (H := Samples.tight_settings)
            [Samples.long_chunk; Samples.short_chunk]) 0 0
  /\ total_text_len
       (RAGService._select_chunks (H := Samples.tight_settings)
          [Samples.long_chunk; Samples.short_chunk] 5)
     <= max_context_characters (Settings := Samples.tight_settings)
  /\ Z.of_nat (length
       (RAGService._select_chunks (H := Samples.tight_settings)
          [Samples.long_chunk; Samples.short_chunk] 5)) <= 5.
Proof.
  assert (H1 : 0 < 5) by lia.
  assert (H2 : 0 <= max_context_characters (Settings := Samples.tight_settings))
    by (vm_compute; discriminate).
  destruct (select_chunks_greedy_budget_count (H := Samples.tight_settings)
              [Samples.long_chunk; Samples.short_chunk] 5 H1 H2)
    as (Hwalk & _ & _ & Hbudget & Hcount).
  repeat split; assumption.
Defined.



Lemma zero_budget_keeps_empty_text :
  max_context_characters (Settings := Samples.zero_budget_settings) = 0
  /\ Forall (fun c => InternalChunk.text c = ""%string)
       (RAGService._select_chunks (H := Samples.zero_budget_settings)
          [Samples.empty_chunk; Samples.short_chunk] 5).
Proof.
  assert (Hzero : max_context_characters
                    (Settings := Samples.zero_budget_settings) = 0)
    by reflexivity.
  split; [exact Hzero|].
  exact (proj1 (zero_budget_selects_only_empty_texts
                  (H := Samples.zero_budget_settings)
                  [Samples.empty_chunk; Samples.short_chunk] 5 Hzero)).
Defined.

(** C5 as stated fails: with a budget of 0 a candidate whose text is empty
    is still selected. *)
Lemma zero_budget_selection_not_always_empty :
  ~ (forall (settings : Settings) (chunks : list InternalChunk.t)
            (max_sources : Z),
       max_context_characters (Settings := settings) = 0 ->
       RAGService._select_chunks (H := settings) chunks max_sources = []).
Proof.
  intros Hclaim.
  specialize (Hclaim Samples.zero_budget_settings [Samples.empty_chunk] 5 eq_refl).
  vm_compute in Hclaim. discriminate Hclaim.
Qed.

Lemma second_document_without_distance :
  default [] (QueryResult.documents Samples.short_distances) !! 1%nat
    = Some (Some "second"%string)
  /\ default [] (QueryResult.distances Samples.short_distances) !! 1%nat = None
  /\ exists chunk,
       ChromaRepository.chunks_of_raw Samples.short_distances !! 1%nat = Some chunk
       /\ InternalChunk.score chunk = PyFloat.one.
Proof.
  assert (Hdoc : default [] (QueryResult.documents Samples.short_distances) !! 1%nat
                 = Some (Some "second"%string)) by reflexivity.
  assert (Hdist : default [] (QueryResult.distances Samples.short_distances) !! 1%nat
                  = None) by reflexivity.
  split; [exact Hdoc|]. split; [exact Hdist|].
  destruct (missing_distance_scores_one Samples.short_distances 1
              (Some "second"%string) Hdoc Hdist)
    as (chunk & Hchunk & _ & Hone & _).
  exists chunk. split; assumption.
Defined.

(* ===================================================================== *)
(** * Part IV. Further properties of the code                             *)
(* ===================================================================== *)

(** ** More on the selection *)

Section SelectionFacts.
Import RAGService PyFloatFacts.

Lemma insert_desc_perm (c : InternalChunk.t) (l : list InternalChunk.t) :
  insert_desc c l ≡ₚ c :: l.
Proof.
  induction l as [|d l IH]; cbn; [reflexivity|].
  destruct (PyFloat.ltb _ _); [|reflexivity].
  rewrite IH. apply Permutation_swap.
Qed.

Lemma sort_perm (l : list InternalChunk.t) : sort_by_score_desc l ≡ₚ l.
Proof.
  induction l as [|c l IH]; cbn; [reflexivity|].
  rewrite insert_desc_perm. constructor. exact IH.
Qed.

Lemma total_text_len_perm (l1 l2 : list InternalChunk.t) :
  l1 ≡ₚ l2 -> total_text_len l1 = total_text_len l2.
Proof.
  induction 1; rewrite ?total_text_len_cons; lia.
Qed.

Lemma leb_refl (x : float) : PyFloat.is_nan x = false -> PyFloat.leb x x = true.
Proof. by_keys. Qed.

(** Sorting a list that is sorted already changes nothing. *)
Lemma sort_of_sorted (l : list InternalChunk.t) :
  StronglySorted descending l -> sort_by_score_desc l = l.
Proof.
  induction 1 as [|c l Hs IH Hall]; cbn; [reflexivity|].
  fold (sort_by_score_desc l). rewrite IH.
  destruct l as [|d l]; [reflexivity|]. cbn.
  apply Forall_cons in Hall as [Hd _]. unfold descending in Hd.
  rewrite (leb_ltb_false _ _ Hd). reflexivity.
Qed.

Lemma bool_filter_all {A} (f : A -> bool) (l : list A) :
  Forall (fun x => f x = true) l -> List.filter f l = l.
Proof.
  induction 1 as [|x l Hx _ IH]; cbn; [reflexivity|].
  rewrite Hx, IH. reflexivity.
Qed.

Lemma greedy_all_fit (ms mc : Z) (l : list InternalChunk.t) (n t : Z) :
  n + Z.of_nat (length l) <= ms ->
  t + total_text_len l <= mc ->
  Spec.greedy ms mc l n t = l.
Proof.
  revert n t. induction l as [|c l IH]; intros n t Hn Ht; [reflexivity|].
  rewrite total_text_len_cons in Ht. cbn [length] in Hn.
  pose proof (total_text_len_nonneg l). cbn [Spec.greedy].
  replace (n <? ms) with true by lia.
  replace (t + PyStr.len (InternalChunk.text c) <=? mc) with true by lia.
  cbn [andb]. f_equal. apply IH; lia.
Qed.

Lemma greedy_no_budget (ms mc : Z) (l : list InternalChunk.t) (n t : Z) :
  mc < t -> Spec.greedy ms mc l n t = [].
Proof.
  intros Ht. induction l as [|c l IH]; cbn; [reflexivity|].
  pose proof (len_nonneg (InternalChunk.text c)).
  replace (t + PyStr.len (InternalChunk.text c) <=? mc) with false by lia.
  rewrite andb_false_r. exact IH.
Qed.

Lemma greedy_idempotent (ms mc : Z) (l : list InternalChunk.t) (n t : Z) :
  Spec.greedy ms mc (Spec.greedy ms mc l n t) n t = Spec.greedy ms mc l n t.
Proof.
  revert n t. induction l as [|c l IH]; intros n t; cbn; [reflexivity|].
  destruct (_ && _) eqn:Hacc; [|apply IH].
  cbn [Spec.greedy]. rewrite Hacc. f_equal. apply IH.
Qed.

(** The head of the walk's result is the first chunk that fits; the chunks
    in front of it are too long for the whole budget. *)
Lemma greedy_head (ms mc : Z) (l : list InternalChunk.t) (c : InternalChunk.t)
    (out : list InternalChunk.t) :
  Spec.greedy ms mc l 0 0 = c :: out ->
  exists pre post,
    l = pre ++ c :: post
    /\ Forall (fun d => mc < PyStr.len (InternalChunk.text d)) pre
    /\ PyStr.len (InternalChunk.text c) <= mc.
Proof.
  induction l as [|d l IH]; cbn; [discriminate|].
  destruct (0 <? ms) eqn:Hms; cbn.
  - destruct (_ <=? _) eqn:Hfit.
    + intros [= -> _]. exists [], l. repeat split; [constructor | lia].
    + intros Hrest. destruct (IH Hrest) as (pre & post & -> & Hpre & Hc).
      exists (d :: pre), post. repeat split; [|exact Hc].
      constructor; [lia | exact Hpre].
  - intros Hrest. rewrite greedy_full in Hrest by lia. discriminate.
Qed.

Lemma submseteq_NoDup {A} (l1 l2 : list A) : l1 ⊆+ l2 -> NoDup l2 -> NoDup l1.
Proof.
  intros [k Hk]%submseteq_Permutation Hnd. rewrite Hk in Hnd.
  apply NoDup_app in Hnd. tauto.
Qed.

Context `{Settings}.

Lemma filtered_perm (chunks : list InternalChunk.t) :
  filtered chunks ≡ₚ List.filter (score_ok retrieval_min_score) chunks.
Proof. apply sort_perm. Qed.

Lemma select_chunks_submseteq (chunks : list InternalChunk.t) (max_sources : Z) :
  _select_chunks chunks max_sources ⊆+ chunks.
Proof.
  transitivity (filtered chunks);
    [apply sublist_submseteq, select_chunks_sublist|].
  transitivity (List.filter (score_ok retrieval_min_score) chunks);
    [apply Permutation_submseteq, filtered_perm|].
  apply sublist_submseteq, bool_filter_sublist.
Qed.

Lemma select_chunks_sorted (chunks : list InternalChunk.t) (max_sources : Z) :
  StronglySorted descending (_select_chunks chunks max_sources).
Proof.
  eapply StronglySorted_sublist;
    [apply select_chunks_sublist | apply filtered_sorted].
Qed.

End SelectionFacts.

Section SelectionExtras.
Import RAGService PyFloatFacts.
Context `{Settings}.

(** X1. When the chunks that pass the threshold are at most [max_sources]
    and their texts fit the budget together, all of them are selected: the
    selection is the whole filtered, sorted list. *)
Theorem select_chunks_all_when_fitting
    (chunks : list InternalChunk.t) (max_sources : Z) :
  Z.of_nat (length (List.filter (score_ok retrieval_min_score) chunks))
    <= max_sources ->
  total_text_len (List.filter (score_ok retrieval_min_score) chunks)
    <= max_context_characters ->
  _select_chunks chunks max_sources = filtered chunks
  /\ _select_chunks chunks max_sources
       ≡ₚ List.filter (score_ok retrieval_min_score) chunks.
Proof.
  intros Hcount Hlen.
  assert (Heq : _select_chunks chunks max_sources = filtered chunks).
  { rewrite select_chunks_greedy. apply greedy_all_fit.
    - rewrite (Permutation_length (filtered_perm chunks)). lia.
    - rewrite (total_text_len_perm _ _ (filtered_perm chunks)). lia. }
  split; [exact Heq|]. rewrite Heq. apply filtered_perm.
Qed.

(** X2. A cap of zero or less, or a negative budget, selects nothing. *)
Theorem select_chunks_nothing_without_room
    (chunks : list InternalChunk.t) (max_sources : Z) :
  max_sources <= 0 \/ max_context_characters < 0 ->
  _select_chunks chunks max_sources = [].
Proof.
  intros [Hms|Hmc]; rewrite select_chunks_greedy.
  - apply greedy_full, Hms.
  - apply greedy_no_budget, Hmc.
Qed.

(** X3. A chunk whose score is NaN is never selected, and a NaN threshold
    selects nothing at all. *)
Theorem select_chunks_rejects_nan
    (chunks : list InternalChunk.t) (max_sources : Z) :
  Forall (fun c => PyFloat.is_nan (InternalChunk.score c) = false)
         (_select_chunks chunks max_sources)
  /\ (if PyFloat.is_nan retrieval_min_score
      then _select_chunks chunks max_sources = []
      else True).
Proof.
  split.
  - apply Forall_forall. intros c Hc.
    apply select_chunks_elem in Hc as [_ Hok].
    apply leb_not_nan in Hok. tauto.
  - destruct (PyFloat.is_nan retrieval_min_score) eqn:Hnan; [|exact I].
    destruct (_select_chunks chunks max_sources) as [|c out] eqn:Hout;
      [reflexivity|].
    assert (Hc : c ∈ _select_chunks chunks max_sources)
      by (rewrite Hout; apply elem_of_cons; left; reflexivity).
    apply select_chunks_elem in Hc as [_ Hok].
    apply leb_not_nan in Hok. destruct Hok as [Hok _]. congruence.
Qed.

(** X4. Selecting again from a selection returns it unchanged. *)
Theorem select_chunks_idempotent
    (chunks : list InternalChunk.t) (max_sources : Z) :
  _select_chunks (_select_chunks chunks max_sources) max_sources
  = _select_chunks chunks max_sources.
Proof.
  set (out := _select_chunks chunks max_sources).
  assert (Hfiltered : filtered out = out).
  { unfold filtered. rewrite bool_filter_all.
    - apply sort_of_sorted, select_chunks_sorted.
    - apply Forall_forall. intros c Hc.
      apply select_chunks_elem in Hc. tauto. }
  rewrite select_chunks_greedy, Hfiltered. unfold out.
  rewrite select_chunks_greedy. apply greedy_idempotent.
Qed.

(** X5. The selection takes each chunk at most as often as the input holds
    it; if the ids of the input are pairwise distinct, so are those of the
    selection. *)
Theorem select_chunks_never_duplicates
    (chunks : list InternalChunk.t) (max_sources : Z) :
  _select_chunks chunks max_sources ⊆+ chunks
  /\ (NoDup (InternalChunk.id <$> chunks) ->
      NoDup (InternalChunk.id <$> _select_chunks chunks max_sources)).
Proof.
  split; [apply select_chunks_submseteq|].
  apply submseteq_NoDup, fmap_submseteq, select_chunks_submseteq.
Qed.

(** X6. The chunk selected first scores at least as much as every chunk of
    the input that passes the threshold and whose text fits the budget on
    its own. *)
Theorem first_selected_is_best_fitting
    (chunks : list InternalChunk.t) (max_sources : Z)
    (c : InternalChunk.t) (out : list InternalChunk.t) :
  _select_chunks chunks max_sources = c :: out ->
  Forall (fun d =>
            score_ok retrieval_min_score d = true ->
            PyStr.len (InternalChunk.text d) <= max_context_characters ->
            PyFloat.leb (InternalChunk.score d) (InternalChunk.score c) = true)
         chunks.
Proof.
  rewrite select_chunks_greedy. intros Hsel.
  destruct (greedy_head _ _ _ _ _ Hsel) as (pre & post & Hl & Hpre & Hc).
  pose proof (filtered_sorted chunks) as Hs. rewrite Hl in Hs.
  apply (StronglySorted_app_1_r descending pre (c :: post)) in Hs.
  apply StronglySorted_inv in Hs as [_ Hpost].
  apply Forall_forall. intros d Hd Hok Hfit.
  assert (Hin : d ∈ filtered chunks) by (apply filtered_elem; tauto).
  rewrite Hl, elem_of_app, elem_of_cons in Hin.
  destruct Hin as [Hin|[->|Hin]].
  - rewrite Forall_forall in Hpre. specialize (Hpre d Hin). lia.
  - unfold score_ok in Hok. apply leb_not_nan in Hok as [_ Hnan].
    apply leb_refl, Hnan.
  - rewrite Forall_forall in Hpost. exact (Hpost d Hin).
Qed.

End SelectionExtras.

(** ** More on the repository *)

Section RepositoryExtras.
Import ChromaRepository.

Lemma str_of_int_inj (a b : Z) : PyStr.str_of_int a = PyStr.str_of_int b -> a = b.
Proof.
  intros E. pose proof (int_of_str_of_int a) as Ha.
  rewrite E, int_of_str_of_int in Ha. congruence.
Qed.

(** X7. The repository returns one chunk per document, in the order of the
    documents; a missing document gives an empty text; every score lies in
    [[0, 1]]. *)
Theorem one_chunk_per_document (raw : QueryResult.t) :
  length (chunks_of_raw raw) = length (default [] (QueryResult.documents raw))
  /\ InternalChunk.text <$> chunks_of_raw raw
     = default ""%string <$> default [] (QueryResult.documents raw)
  /\ Forall (fun c => score_in_range c = true) (chunks_of_raw raw).
Proof.
  split; [|split; [|apply chunks_of_raw_in_range]].
  - unfold chunks_of_raw.
    destruct (default [] (QueryResult.documents raw)); [reflexivity|].
    apply length_imap.
  - apply list_eq. intros idx.
    rewrite !list_lookup_fmap, chunks_of_raw_lookup.
    destruct (_ !! idx); reflexivity.
Qed.

(** X8. Without ids in the response, the chunks are named by their decimal
    positions, which are pairwise distinct; with at least one id per
    document, the chunks carry the ids of the response in order. *)
Theorem chunk_ids_from_response_or_position (raw : QueryResult.t) :
  match QueryResult.ids raw with
  | None =>
      InternalChunk.id <$> chunks_of_raw raw
      = (fun i => PyStr.str_of_int (Z.of_nat i))
          <$> seq 0 (length (default [] (QueryResult.documents raw)))
      /\ NoDup (InternalChunk.id <$> chunks_of_raw raw)
  | Some ids =>
      (length (default [] (QueryResult.documents raw)) <= length ids)%nat ->
      InternalChunk.id <$> chunks_of_raw raw
      = take (length (default [] (QueryResult.documents raw))) ids
  end.
Proof.
  destruct (QueryResult.ids raw) as [ids|] eqn:Hids.
  - intros Hlen. apply list_eq. intros idx.
    rewrite list_lookup_fmap, chunks_of_raw_lookup, Hids.
    destruct (default [] (QueryResult.documents raw) !! idx) as [doc|] eqn:Hdoc.
    + apply lookup_lt_Some in Hdoc. rewrite lookup_take_lt by lia.
      destruct (ids !! idx) as [i|] eqn:Hi; [cbn; rewrite Hi; reflexivity|].
      apply lookup_ge_None in Hi. lia.
    + apply lookup_ge_None in Hdoc. rewrite lookup_take_ge by lia. reflexivity.
  - assert (Heq : InternalChunk.id <$> chunks_of_raw raw
                  = (fun i => PyStr.str_of_int (Z.of_nat i))
                      <$> seq 0 (length (default [] (QueryResult.documents raw)))).
    { apply list_eq. intros idx.
      rewrite !list_lookup_fmap, chunks_of_raw_lookup, Hids.
      destruct (default [] (QueryResult.documents raw) !! idx) as [doc|] eqn:Hdoc.
      - apply lookup_lt_Some in Hdoc.
        rewrite lookup_seq_lt by lia. cbn.
        rewrite list_lookup_fmap, lookup_seq_lt by lia. reflexivity.
      - apply lookup_ge_None in Hdoc. rewrite lookup_seq_ge by lia. reflexivity. }
    split; [exact Heq|]. rewrite Heq.
    apply NoDup_fmap_2; [|apply NoDup_seq].
    intros a b E. apply str_of_int_inj in E. lia.
Qed.

Context `{Settings} `{ChromaCollection}.

(** X9. Whatever number of results is asked for, the collection is queried
    for at least one; it is queried for at most [retrieval_max_k] when that
    is at least one, and for the number asked when that lies between the
    two. *)
Theorem forwarded_count_bounds (q : string) (n : Z) (log : list event) :
  exists n',
    snd (similarity_search q n log)
    = log ++ [SimilaritySearchCall q n; CollectionQueryCall q n']
    /\ 1 <= n'
    /\ (1 <= retrieval_max_k -> n' <= retrieval_max_k)
    /\ (1 <= n <= retrieval_max_k -> n' = n).
Proof.
  exists (Z.max 1 (Z.min n retrieval_max_k)).
  rewrite similarity_search_run. cbv zeta.
  split; [destruct (query _ _); reflexivity|]. lia.
Qed.

End RepositoryExtras.

(** ** More on the sources and the answer *)

Section CitationExtras.
Import RAGService.
Context `{PyLib}.

Lemma format_loop_cases (idx : Z) (chunks : list InternalChunk.t)
    (acc : list SourceChunk.t) :
  1 <= idx ->
  match format_loop idx chunks acc with
  | Returned sources =>
      Forall (fun c => score_in_range c = true) chunks
      /\ length sources = (length acc + length chunks)%nat
  | Raised e =>
      e = ValidationError "score"
      /\ Exists (fun c => score_in_range c = false) chunks
  end.
Proof.
  revert idx acc. induction chunks as [|c chunks IH]; intros idx acc Hidx.
  - cbn. split; [constructor | lia].
  - cbn [format_loop]. destruct (score_in_range c) eqn:Hc.
    + rewrite make_ok by (exact Hc || exact Hidx). cbn [mbind outcome_bind].
      specialize (IH (idx + 1) (acc ++ [ {|
        SourceChunk.id := InternalChunk.id c; SourceChunk.citation_id := idx;
        SourceChunk.score := InternalChunk.score c;
        SourceChunk.source := py_str <$> source_name_of c;
        SourceChunk.rank := idx; SourceChunk.text := InternalChunk.text c;
        SourceChunk.metadata := InternalChunk.metadata c |} ]) ltac:(lia)).
      destruct (format_loop _ _ _) as [sources|e].
      * destruct IH as [Hall Hlen]. split; [constructor; assumption|].
        rewrite Hlen, length_app. cbn. lia.
      * destruct IH as [He Hex]. split; [exact He | right; exact Hex].
    + unfold SourceChunk.make. unfold score_in_range in Hc. rewrite Hc.
      cbn. split; [reflexivity | left; exact Hc].
Qed.

(** X10. Building the sources succeeds exactly when every score lies in
    [[0, 1]], and then gives one source per chunk; otherwise it raises the
    validation error of the [score] field, and no other error. *)
Theorem format_sources_fails_only_on_score (chunks : list InternalChunk.t) :
  match _format_sources chunks with
  | Returned sources =>
      Forall (fun c => score_in_range c = true) chunks
      /\ length sources = length chunks
  | Raised e =>
      e = ValidationError "score"
      /\ Exists (fun c => score_in_range c = false) chunks
  end.
Proof.
  unfold _format_sources.
  pose proof (format_loop_cases 1 chunks [] ltac:(lia)) as Hcases.
  destruct (format_loop 1 chunks []); exact Hcases.
Qed.


End CitationExtras.

(** ** More on the orchestrator *)

Section OrchestratorExtras.
Import RAGService ChromaRepository PyFloatFacts.
Context `{Settings} `{PyLib} `{ChromaCollection}.

(** X12. A returned response lists exactly the selected chunks: its sources
    describe the selection made from the chunks of the store's result, in
    order, numbered from 1. Hence there are at most [max_sources] sources
    (none when that is not positive), and every source scores at least the
    threshold and at most 1. *)
Theorem response_lists_the_selection
    (payload : QueryRequest.t) (log log' : list event)
    (response : QueryResponse.t) :
  answer_question payload log = (Returned response, log') ->
  exists raw,
    query (PyStr.strip (QueryRequest.question payload))
          (Z.max 1 (Z.min (Z.max (resolve_max_sources payload)
                                 retrieval_default_top_k)
                          retrieval_max_k))
    = Returned raw
    /\ let selected :=
         _select_chunks (chunks_of_raw raw) (resolve_max_sources payload) in
       let sources := QueryResponse.sources response in
       Forall2 describes sources selected
       /\ SourceChunk.citation_id <$> sources = seqZ 1 (Z.of_nat (length sources))
       /\ SourceChunk.rank <$> sources = seqZ 1 (Z.of_nat (length sources))
       /\ Z.of_nat (length sources) <= Z.max 0 (resolve_max_sources payload)
       /\ Forall (fun s =>
                    PyFloat.leb retrieval_min_score (SourceChunk.score s) = true
                    /\ PyFloat.leb (SourceChunk.score s) PyFloat.one = true)
                 sources.
Proof.
  rewrite answer_question_run. cbv zeta.
  destruct (query _ _) as [raw|e]; [|discriminate].
  intros Hrun. exists raw. split; [reflexivity|]. cbv zeta.
  set (ms := resolve_max_sources payload) in *.
  destruct (format_selected (chunks_of_raw raw) ms (chunks_of_raw_in_range raw))
    as (sources & Hformat & Hids & Hranks & Hdesc).
  assert (Hsources : QueryResponse.sources response = sources).
  { destruct (chunks_of_raw raw) as [|c cs] eqn:Hraw.
    - injection Hrun as <- _. cbn [QueryResponse.sources].
      cbv in Hformat. congruence.
    - rewrite Hformat in Hrun. injection Hrun as <- _. reflexivity. }
  rewrite Hsources.
  pose proof (Forall2_length _ _ _ Hdesc) as Hlen.
  rewrite Hlen. repeat split; try assumption.
  - rewrite select_chunks_greedy.
    destruct (Z.le_gt_cases ms 0) as [Hle|Hgt].
    + rewrite greedy_full by lia. cbn. lia.
    + pose proof (greedy_count ms max_context_characters
                    (filtered (chunks_of_raw raw)) 0 0). lia.
  - apply Forall_forall. intros s Hs.
    apply list_elem_of_lookup in Hs as [i Hs].
    destruct (Forall2_lookup_l _ _ _ _ _ Hdesc Hs) as (c & Hc & Hsc).
    destruct Hsc as (_ & _ & -> & _).
    apply list_elem_of_lookup_2, select_chunks_elem in Hc as [Hin Hok].
    split; [exact Hok|].
    pose proof (chunks_of_raw_in_range raw) as Hrange.
    rewrite Forall_forall in Hrange. specialize (Hrange c Hin).
    unfold score_in_range in Hrange. apply andb_true_iff in Hrange. tauto.
Qed.

(** X13. For a request that passes the schema, the number of sources asked
    for is the caller's whenever the caller gave one, and the configured
    default otherwise; it is at least 1 when the default is. *)
Theorem valid_request_keeps_max_sources
    (question : string) (max_sources : option Z) (payload : QueryRequest.t) :
  validate_query_request question max_sources = Returned payload ->
  QueryRequest.question payload = question
  /\ question <> ""%string
  /\ resolve_max_sources payload = default retrieval_default_top_k max_sources
  /\ (1 <= retrieval_default_top_k -> 1 <= resolve_max_sources payload).
Proof.
  unfold validate_query_request, resolve_max_sources.
  destruct (PyStr.len question <? 1) eqn:Hq; [discriminate|].
  destruct max_sources as [n|]; cbn [default].
  - destruct (n <? 1) eqn:Hn; [discriminate|].
    intros [= <-]. cbn. replace (n =? 0) with false by lia.
    repeat split; try lia.
    intros ->. cbn in Hq. discriminate.
  - intros [= <-]. cbn. repeat split; try lia.
    intros ->. cbn in Hq. discriminate.
Qed.

Lemma lstrip_all_space (s : string) : all_isspace s = true -> PyStr.lstrip s = ""%string.
Proof.
  induction s as [|c s IH]; cbn; [reflexivity|].
  destruct (PyStr.isspace c); [exact IH | discriminate].
Qed.

(** X14. A question made of white space only passes the schema, and the
    store is then queried with the empty text. *)
Theorem blank_question_queries_empty_text
    (question : string) (log : list event) :
  question <> ""%string ->
  all_isspace question = true ->
  exists payload n n',
    validate_query_request question None = Returned payload
    /\ snd (answer_question payload log)
       = log ++ [SimilaritySearchCall "" n; CollectionQueryCall "" n'].
Proof.
  intros Hne Hspace.
  exists {| QueryRequest.question := question; QueryRequest.max_sources := None |}.
  assert (Hvalid : validate_query_request question None
                   = Returned {| QueryRequest.question := question;
                                 QueryRequest.max_sources := None |}).
  { unfold validate_query_request.
    destruct question as [|c rest]; [contradiction|].
    unfold PyStr.len. cbn [String.length].
    destruct (Z.ltb_spec (Z.of_nat (S (String.length rest))) 1);
      [lia | reflexivity]. }
  do 2 eexists. split; [exact Hvalid|].
  - rewrite answer_question_run. cbv zeta. cbn [QueryRequest.question].
    assert (Hstrip : PyStr.strip question = ""%string).
    { unfold PyStr.strip. rewrite lstrip_all_space by exact Hspace. reflexivity. }
    rewrite Hstrip.
    destruct (query _ _) as [raw|e]; [|reflexivity].
    destruct (chunks_of_raw raw); [reflexivity|].
    destruct (_format_sources _); reflexivity.
Qed.

End OrchestratorExtras.

(** ** The web layer and the singletons *)

Section WebLayer.
Import RAGService ChromaRepository.

(** X15. Whatever the client raises on the heartbeat, [/health] answers
    with the HTTP exception 503 whose detail is the fixed text of
    [healthcheck], never with the client's own text and never with another
    failure; when the heartbeat returns, the endpoint reports it. *)
Theorem health_reports_heartbeat_or_503 `{AppSettings} (chroma_repo : Repository.t) :
  match heartbeat (Repository._client chroma_repo) with
  | Returned beat =>
      App.health chroma_repo
      = inr {[ "status" := SStr "ok";
               "app_version" := SStr app_version;
               "chroma_heartbeat" := SInt beat ]}
  | Raised _ =>
      App.health chroma_repo
      = inl (Http.HTTPException 503 "ChromaDB is not reachable")
  end.
Proof.
  unfold App.health, Repository.healthcheck.
  destruct (heartbeat _); reflexivity.
Qed.

(** X16. The query endpoint never fails: it answers 503, with the reason
    [ChromaDB query failed], when the query to the collection raises, and
    200 with a response model when it returns. *)
Theorem query_endpoint_answers_200_or_503 `{PyLib}
    (rag_service : Service.t) (payload : QueryRequest.t) (log : list event) :
  let settings := Service._settings rag_service in
  let collection := Repository._collection (Service._chroma_repo rag_service) in
  let n := Z.max (resolve_max_sources (H := settings) payload)
                 (retrieval_default_top_k (Settings := settings)) in
  match query (ChromaCollection := collection)
          (PyStr.strip (QueryRequest.question payload))
          (Z.max 1 (Z.min n (retrieval_max_k (Settings := settings)))) with
  | Raised _ =>
      fst (App.post_query rag_service payload log)
      = Returned (App.chroma_unavailable_handler "ChromaDB query failed")
  | Returned _ =>
      exists response,
        fst (App.post_query rag_service payload log)
        = Returned {| Http.status_code := 200;
                      Http.content := Http.Model response;
                      Http.headers := ∅ |}
  end.
Proof.
  cbv zeta. unfold App.post_query, App.query_rag, Service.answer_question.
  rewrite answer_question_run. cbv zeta.
  destruct (query _ _) as [raw|e]; [|reflexivity].
  destruct (chunks_of_raw raw) as [|c cs] eqn:Hraw.
  - eexists. reflexivity.
  - destruct (format_selected (H := Service._settings rag_service) (c :: cs)
                (resolve_max_sources (H := Service._settings rag_service) payload))
      as (sources & -> & _).
    { rewrite <- Hraw. apply chunks_of_raw_in_range. }
    eexists. reflexivity.
Qed.

(** X17. When the middleware returns a response, the handler has run on the
    request with an id in its state, and the response is the handler's with
    that same id in its X-Request-ID header: status, content and the other
    headers are kept. The id is the one the client sent when it sent a
    non-empty one. An exception of the handler is passed on. *)
Theorem middleware_echoes_request_id `{Uuid}
    (request : Http.Request) (call_next : Http.Request -> Run Http.Response)
    (log : list event) :
  let request_id := App.request_id_of request in
  let seen :=
    {| Http.method := Http.method request;
       Http.path := Http.path request;
       Http.request_headers := Http.request_headers request;
       Http.state_request_id := Some request_id |} in
  (forall given,
     Http.request_headers request !! "X-Request-ID"%string = Some given ->
     given <> ""%string -> request_id = given)
  /\ match call_next seen log with
     | (Returned inner, log') =>
         exists response,
           App.add_request_context request call_next log = (Returned response, log')
           /\ Http.headers response !! "X-Request-ID"%string = Some request_id
           /\ (forall name, name <> "X-Request-ID"%string ->
                 Http.headers response !! name = Http.headers inner !! name)
           /\ Http.status_code response = Http.status_code inner
           /\ Http.content response = Http.content inner
     | (Raised e, log') =>
         App.add_request_context request call_next log = (Raised e, log')
     end.
Proof.
  cbv zeta. split.
  - intros given Hgiven Hne. unfold App.request_id_of. rewrite Hgiven.
    destruct (String.eqb_spec given ""); [contradiction | reflexivity].
  - unfold App.add_request_context.
    destruct (call_next _ log) as [[inner|e] log']; [|reflexivity].
    eexists. split; [reflexivity|]. cbn.
    repeat split.
    + apply lookup_insert_eq.
    + intros name Hname. apply lookup_insert_ne. congruence.
Qed.

(** X18. Once [get_chroma_repository] has returned a repository, every
    later call returns that repository and leaves the globals alone,
    whatever the state of the server by then. A failed construction raises
    [ChromaUnavailableError] and is not remembered. *)
Theorem repository_is_built_once `{AppSettings}
    (server : Chromadb) (g : Globals.t) :
  match get_chroma_repository (H := server) g with
  | (Returned repo, g') =>
      forall later : Chromadb,
        get_chroma_repository (H := later) g' = (Returned repo, g')
  | (Raised e, g') =>
      g' = g /\ exists message, e = ChromaUnavailableError message
  end.
Proof.
  unfold get_chroma_repository.
  destruct (Globals._chroma_repo g) as [repo|] eqn:Hg.
  - intros later. rewrite Hg. reflexivity.
  - unfold Repository.__init__.
    destruct (HttpClient _ _) as [client|e]; cbn.
    + destruct (get_or_create_collection client _) as [collection|e]; cbn.
      * intros later. reflexivity.
      * split; [reflexivity | eexists; reflexivity].
    + split; [reflexivity | eexists; reflexivity].
Qed.

Lemma repository_built `{AppSettings} (server : Chromadb) :
  match get_chroma_repository (H := server) Globals.initial with
  | (Returned repo, g') =>
      Globals._chroma_repo g' = Some repo /\ Globals._rag_service g' = None
  | (Raised e, g') =>
      g' = Globals.initial /\ exists message, e = ChromaUnavailableError message
  end.
Proof.
  unfold get_chroma_repository, Repository.__init__. cbn [Globals.initial Globals._chroma_repo].
  destruct (HttpClient _ _) as [client|e]; cbn.
  - destruct (get_or_create_collection client _) as [collection|e]; cbn.
    + split; reflexivity.
    + split; [reflexivity | eexists; reflexivity].
  - split; [reflexivity | eexists; reflexivity].
Qed.

(** X19. Starting with nothing built, a service returned by
    [get_rag_service] holds the repository now stored in the globals and
    the ambient settings, and every later call returns that same service,
    whatever the state of the server by then. *)
Theorem service_is_built_once `{AppSettings} `{settings : Settings}
    (server : Chromadb) :
  match get_rag_service (H := server) Globals.initial with
  | (Returned service, g') =>
      Globals._chroma_repo g' = Some (Service._chroma_repo service)
      /\ Globals._rag_service g' = Some service
      /\ Service._settings service = settings
      /\ forall later : Chromadb,
           get_rag_service (H := later) g' = (Returned service, g')
  | (Raised e, g') =>
      g' = Globals.initial /\ exists message, e = ChromaUnavailableError message
  end.
Proof.
  unfold get_rag_service. cbn [Globals.initial Globals._rag_service].
  pose proof (repository_built server) as Hrepo.
  destruct (get_chroma_repository Globals.initial) as [[repo|e] g'].
  - destruct Hrepo as [Hstored Hservice]. cbn.
    rewrite Hstored. repeat split.
  - exact Hrepo.
Qed.

End WebLayer.

(** ** Seeding the collection *)

Section Seeding.
Import InitChroma.

Lemma zip_of_fields (l : list Doc) :
  zip (id <$> l) (zip (text <$> l) (metadata <$> l))
  = (fun d => (id d, (text d, metadata d))) <$> l.
Proof. induction l as [|d l IH]; cbn; [reflexivity|]. rewrite IH. reflexivity. Qed.

Lemma entries_ids (l : list Doc) :
  ((fun d => (id d, (text d, metadata d))) <$> l).*1 = id <$> l.
Proof. rewrite <- list_fmap_compose. reflexivity. Qed.

(** The collection after seeding, whether or not [add] was called. *)
Lemma seed_store (docs : list Doc) (store : gmap string (string * Metadata)) :
  fst (seed docs store)
  = list_to_map ((fun d => (id d, (text d, metadata d)))
                   <$> filter (fun d => id d ∉ dom store) docs) ∪ store.
Proof.
  unfold seed, add. rewrite zip_of_fields.
  destruct (filter _ docs); [|reflexivity].
  cbn. rewrite (left_id_L ∅ (∪)). reflexivity.
Qed.

Lemma seed_keeps (docs : list Doc) (store : gmap string (string * Metadata))
    (k : string) (v : string * Metadata) :
  store !! k = Some v -> fst (seed docs store) !! k = Some v.
Proof.
  intros Hk. rewrite seed_store, lookup_union_r; [exact Hk|].
  apply not_elem_of_list_to_map_1. rewrite entries_ids.
  intros Hin. apply list_elem_of_fmap in Hin as (d & -> & Hd).
  apply list_elem_of_filter in Hd as [Hfresh _].
  apply Hfresh, elem_of_dom. eauto.
Qed.

Lemma seed_adds (docs : list Doc) (store : gmap string (string * Metadata))
    (d : Doc) :
  NoDup (id <$> docs) -> d ∈ docs -> store !! id d = None ->
  fst (seed docs store) !! id d = Some (text d, metadata d).
Proof.
  intros Hnodup Hd Hfresh. rewrite seed_store.
  apply lookup_union_Some_l, elem_of_list_to_map_1.
  - rewrite entries_ids.
    eapply sublist_NoDup; [exact Hnodup|].
    apply fmap_sublist, sublist_filter.
  - apply list_elem_of_fmap. exists d. split; [reflexivity|].
    apply list_elem_of_filter. split; [|exact Hd].
    apply not_elem_of_dom, Hfresh.
Qed.

Lemma seed_dom (docs : list Doc) (store : gmap string (string * Metadata)) :
  dom (fst (seed docs store)) = dom store ∪ list_to_set (id <$> docs).
Proof.
  rewrite seed_store, dom_union_L, dom_list_to_map_L, entries_ids.
  apply set_eq. intros k.
  rewrite !elem_of_union, !elem_of_list_to_set, !list_elem_of_fmap.
  split.
  - intros [(d & -> & Hd)|Hk]; [|tauto].
    apply list_elem_of_filter in Hd as [_ Hd]. right. eauto.
  - intros [Hk|(d & -> & Hd)]; [tauto|].
    destruct (decide (id d ∈ dom store)) as [Hin|Hout]; [tauto|].
    left. exists d. split; [reflexivity|].
    apply list_elem_of_filter. tauto.
Qed.

Lemma filter_none {A} (P : A -> Prop) `{!forall x, Decision (P x)} (l : list A) :
  Forall (fun x => ~ P x) l -> filter P l = [].
Proof.
  induction 1 as [|x l Hx _ IH]; [reflexivity|].
  rewrite filter_cons_False by exact Hx. exact IH.
Qed.

Lemma seed_again (docs : list Doc) (store : gmap string (string * Metadata)) :
  seed docs (fst (seed docs store)) = (fst (seed docs store), [GetCall]).
Proof.
  unfold seed at 1. rewrite filter_none; [reflexivity|].
  apply Forall_forall. intros d Hd Hfresh. apply Hfresh.
  rewrite seed_dom, elem_of_union, elem_of_list_to_set, list_elem_of_fmap.
  right. eauto.
Qed.

(** The calls made: one [get], then at most one [add], whose ids are new to
    the collection and pairwise distinct, one document and one metadata
    entry per id. *)
Lemma seed_calls (docs : list Doc) (store : gmap string (string * Metadata)) :
  NoDup (id <$> docs) ->
  snd (seed docs store) = [GetCall]
  \/ exists ids documents metadatas,
       snd (seed docs store) = [GetCall; AddCall ids documents metadatas]
       /\ ids <> []
       /\ NoDup ids
       /\ Forall (fun k => store !! k = None) ids
       /\ length documents = length ids
       /\ length metadatas = length ids.
Proof.
  intros Hnodup. unfold seed.
  destruct (filter _ docs) as [|d new] eqn:Hnew; [left; reflexivity|].
  right. do 3 eexists. split; [reflexivity|]. rewrite <- Hnew.
  repeat split.
  - rewrite Hnew. discriminate.
  - eapply sublist_NoDup; [exact Hnodup|]. apply fmap_sublist, sublist_filter.
  - apply Forall_forall. intros k Hk.
    apply list_elem_of_fmap in Hk as (e & -> & He).
    apply list_elem_of_filter in He as [Hfresh _].
    apply not_elem_of_dom, Hfresh.
  - rewrite !length_fmap. reflexivity.
  - rewrite !length_fmap. reflexivity.
Qed.

Lemma corpus_ids_distinct : NoDup (id <$> _build_sample_corpus).
Proof. refine (bool_decide_unpack _ _). vm_compute. exact I. Qed.

(** X20. Seeding never touches a document the collection already holds,
    stores each sample document whose id is missing with its own text and
    metadata, and adds no id other than those of the sample documents. *)
Theorem main_completes_without_overwriting (store : gmap string (string * Metadata)) :
  (forall k v, store !! k = Some v -> fst (main store) !! k = Some v)
  /\ Forall (fun d =>
               store !! id d = None ->
               fst (main store) !! id d = Some (text d, metadata d))
            _build_sample_corpus
  /\ dom (fst (main store))
     = dom store ∪ list_to_set (id <$> _build_sample_corpus).
Proof.
  unfold main. split; [|split].
  - intros k v. apply seed_keeps.
  - apply Forall_forall. intros d Hd Hfresh.
    apply seed_adds; [apply corpus_ids_distinct | exact Hd | exact Hfresh].
  - apply seed_dom.
Qed.

(** X21. Seeding a second time changes nothing and makes no call to
    [add]. *)
Theorem main_is_idempotent (store : gmap string (string * Metadata)) :
  main (fst (main store)) = (fst (main store), [GetCall]).
Proof. apply seed_again. Qed.

(** X22. Seeding reads the ids once and calls [add] at most once; the ids
    it passes are absent from the collection and pairwise distinct, with
    one document and one metadata entry each. *)
Theorem main_adds_only_new_ids (store : gmap string (string * Metadata)) :
  snd (main store) = [GetCall]
  \/ exists ids documents metadatas,
       snd (main store) = [GetCall; AddCall ids documents metadatas]
       /\ ids <> []
       /\ NoDup ids
       /\ Forall (fun k => store !! k = None) ids
       /\ length documents = length ids
       /\ length metadatas = length ids.
Proof. apply seed_calls, corpus_ids_distinct. Qed.

End Seeding.

(** ** Instances of the further properties *)

Example partly_seeded_collection_keeps_its_text :
  fst (InitChroma.main MoreSamples.partly_seeded) !! "docker-compose-1"%string
    = Some ("edited by hand"%string, ∅)
  /\ size (fst (InitChroma.main MoreSamples.partly_seeded)) = 5%nat
  /\ snd (InitChroma.main (fst (InitChroma.main MoreSamples.partly_seeded)))
     = [InitChroma.GetCall].
Proof. vm_compute. repeat split. Qed.

Lemma three_chunks_all_selected :
  Z.of_nat (length (List.filter
              (RAGService.score_ok (retrieval_min_score (Settings := default_settings)))
              [MoreSamples.tie_first; MoreSamples.best; MoreSamples.tie_second])) <= 5
  /\ total_text_len (List.filter
       (RAGService.score_ok (retrieval_min_score (Settings := default_settings)))
       [MoreSamples.tie_first; MoreSamples.best; MoreSamples.tie_second])
     <= max_context_characters (Settings := default_settings)
  /\ RAGService._select_chunks (H := default_settings)
       [MoreSamples.tie_first; MoreSamples.best; MoreSamples.tie_second] 5
     = [MoreSamples.best; MoreSamples.tie_first; MoreSamples.tie_second].
Proof.
  assert (H1 : Z.of_nat (length (List.filter
              (RAGService.score_ok (retrieval_min_score (Settings := default_settings)))
              [MoreSamples.tie_first; MoreSamples.best; MoreSamples.tie_second])) <= 5)
    by (vm_compute; discriminate).
  assert (H2 : total_text_len (List.filter
       (RAGService.score_ok (retrieval_min_score (Settings := default_settings)))
       [MoreSamples.tie_first; MoreSamples.best; MoreSamples.tie_second])
     <= max_context_characters (Settings := default_settings))
    by (vm_compute; discriminate).
  split; [exact H1|]. split; [exact H2|].
  rewrite (proj1 (select_chunks_all_when_fitting (H := default_settings) _ 5 H1 H2)).
  reflexivity.
Defined.

Lemma no_sources_wanted_none_selected :
  (0 <= 0 \/ max_context_characters (Settings := default_settings) < 0)
  /\ RAGService._select_chunks (H := default_settings) [MoreSamples.best] 0 = [].
Proof.
  assert (Hroom : 0 <= 0 \/ max_context_characters (Settings := default_settings) < 0)
    by (left; lia).
  split; [exact Hroom|].
  exact (select_chunks_nothing_without_room (H := default_settings)
           [MoreSamples.best] 0 Hroom).
Defined.

Lemma short_chunk_is_best_fitting :
  RAGService._select_chunks (H := Samples.tight_settings)
    [Samples.long_chunk; Samples.short_chunk] 5 = [Samples.short_chunk]
  /\ Forall (fun d =>
               RAGService.score_ok
                 (retrieval_min_score (Settings := Samples.tight_settings)) d = true ->
               PyStr.len (InternalChunk.text d)
                 <= max_context_characters (Settings := Samples.tight_settings) ->
               PyFloat.leb (InternalChunk.score d)
                 (InternalChunk.score Samples.short_chunk) = true)
            [Samples.long_chunk; Samples.short_chunk].
Proof.
  assert (Hsel : RAGService._select_chunks (H := Samples.tight_settings)
                   [Samples.long_chunk; Samples.short_chunk] 5
                 = [Samples.short_chunk]) by reflexivity.
  split; [exact Hsel|].
  exact (first_selected_is_best_fitting (H := Samples.tight_settings)
           _ 5 Samples.short_chunk [] Hsel).
Defined.


Lemma scenario_a_response_lists_selection :
  RAGService.answer_question (H := default_settings) (H0 := Samples.lib)
    (H1 := Samples.store Samples.scenario_a)
    (Samples.ask "what is alpha?" None) []
  = (Returned MoreSamples.scenario_a_response,
     [SimilaritySearchCall "what is alpha?" 8;
      CollectionQueryCall "what is alpha?" 8])
  /\ SourceChunk.citation_id <$> QueryResponse.sources MoreSamples.scenario_a_response
     = seqZ 1 (Z.of_nat (length (QueryResponse.sources MoreSamples.scenario_a_response)))
  /\ Z.of_nat (length (QueryResponse.sources MoreSamples.scenario_a_response))
     <= Z.max 0 (RAGService.resolve_max_sources (H := default_settings)
                   (Samples.ask "what is alpha?" None)).
Proof.
  assert (Hrun : RAGService.answer_question (H := default_settings)
                   (H0 := Samples.lib) (H1 := Samples.store Samples.scenario_a)
                   (Samples.ask "what is alpha?" None) []
                 = (Returned MoreSamples.scenario_a_response,
                    [SimilaritySearchCall "what is alpha?" 8;
                     CollectionQueryCall "what is alpha?" 8]))
    by (vm_compute; reflexivity).
  split; [exact Hrun|].
  destruct (response_lists_the_selection (H := default_settings)
              (H0 := Samples.lib) (H1 := Samples.store Samples.scenario_a)
              _ _ _ _ Hrun)
    as (raw & _ & _ & Hids & _ & Hcount & _).
  split; [exact Hids | exact Hcount].
Defined.

Lemma three_sources_requested_and_kept :
  validate_query_request "what?" (Some 3)
    = Returned (Samples.ask "what?" (Some 3))
  /\ RAGService.resolve_max_sources (H := default_settings)
       (Samples.ask "what?" (Some 3)) = 3.
Proof.
  assert (Hvalid : validate_query_request "what?" (Some 3)
                   = Returned (Samples.ask "what?" (Some 3))) by reflexivity.
  split; [exact Hvalid|].
  destruct (valid_request_keeps_max_sources (H := default_settings)
              "what?" (Some 3) _ Hvalid) as (_ & _ & Hms & _).
  exact Hms.
Defined.

Lemma three_blanks_query_empty_text :
  "   "%string <> ""%string
  /\ all_isspace "   " = true
  /\ exists payload n n',
       validate_query_request "   " None = Returned payload
       /\ snd (RAGService.answer_question (H := default_settings)
                 (H0 := Samples.lib) (H1 := Samples.store Samples.scenario_a)
                 payload [])
          = [SimilaritySearchCall "" n; CollectionQueryCall "" n'].
Proof.
  assert (Hne : "   "%string <> ""%string) by discriminate.
  assert (Hspace : all_isspace "   " = true) by reflexivity.
  split; [exact Hne|]. split; [exact Hspace|].
  exact (blank_question_queries_empty_text (H := default_settings)
           (H0 := Samples.lib) (H1 := Samples.store Samples.scenario_a)
           "   " [] Hne Hspace).
Defined.
